(** * A shallow embedding of the console logger (logger.hpp / logger.cc)

    The logger is a [std::streambuf] that collects the bytes of one line in a
    per-thread [line_buffer], prefixes each line with a time stamp, wraps it
    in a colour sequence when the output is a terminal, and hands the line to
    the operating system with [sys::write_file].

    The embedding follows the source function by function.  The two
    conditional compilations of the source ([#ifdef _WIN32] / [#else]) are
    kept as a [platform] value of the build configuration; the operating
    system is a record of oracles ([environment]) together with a [world]
    that records every system call the logger makes. *)

From stdpp Require Import gmap list strings.
From Stdlib Require Import Ascii NArith ZArith Lia.

Local Open Scope N_scope.

(** ** Build configuration *)

Inductive platform := Win32 | Posix.

(** [enum level] of logger.hpp; [last] and [everything] are aliases. *)
Inductive level := trace | debug | info | warn | error | crit.

Definition last : level := crit.
Definition everything : level := trace.

(** The enumerator values, in declaration order. *)
Definition level_value (lv : level) : N :=
  match lv with
  | trace => 0 | debug => 1 | info => 2 | warn => 3 | error => 4 | crit => 5
  end.

(** What the preprocessor fixes: the target, whether [assert] is compiled
    out ([NDEBUG]) and the threshold macro [EXT_LOG_LEVEL] (default
    [logg::info]). *)
Record build := {
  target : platform;
  NDEBUG : bool;
  EXT_LOG_LEVEL : level
}.

(** ** Bytes and strings *)

Abbreviation text := (list ascii).

Definition lit (s : string) : text := String.list_ascii_of_string s.

Definition ESC : ascii := ascii_of_N 27.
Definition NUL : ascii := ascii_of_N 0.
Definition LF : ascii := ascii_of_N 10.
Definition CR : ascii := ascii_of_N 13.

(** [size()] of a [std::string], as a [size_t]. *)
Definition size (s : text) : N := N.of_nat (length s).

(** [size_t] arithmetic wraps around (64-bit [size_t]). *)
Definition size_t_modulus : N := 2 ^ 64.

Definition size_t_sub (a b : N) : N := (a + size_t_modulus - b mod size_t_modulus) mod size_t_modulus.

(** ** logger.hpp: colours *)

(** [typedef unsigned short color_t]. *)
Definition color_t_modulus : N := 65536.

(** [(color_t)-1], the value that stands for "no custom colour". *)
Definition no_color : N := 65535.

Definition fg_black : N := 0.
Definition fg_blue : N := 1.
Definition fg_green : N := 2.
Definition fg_cyan : N := 3.
Definition fg_red : N := 4.
Definition fg_magenta : N := 5.
Definition fg_yellow : N := 6.
Definition fg_white : N := 7.
Definition fg_bright : N := 8.
Definition fg_color : N := fg_white.
Definition bg_black : N := 0.
Definition bg_blue : N := 16.
Definition bg_green : N := 32.
Definition bg_cyan : N := 48.
Definition bg_red : N := 64.
Definition bg_magenta : N := 80.
Definition bg_yellow : N := 96.
Definition bg_white : N := 112.
Definition bg_bright : N := 128.
Definition bg_color : N := bg_white.

Definition EXT_LOG_COLOR : N := N.lor fg_white fg_bright.
Definition EXT_ERR_COLOR : N := N.lor (N.lor bg_red fg_white) fg_bright.

(** ** logger.hpp: the threshold predicates *)

Definition is_clog_active (cfg : build) (lv : level) : bool :=
  level_value (EXT_LOG_LEVEL cfg) <=? level_value lv.

Definition is_cerr_active (cfg : build) (lv : level) : bool :=
  level_value (EXT_LOG_LEVEL cfg) <=? level_value lv.

(** ** Outcomes of the fallible operations

    [line_buffer::append] contains an [assert], which ends the program when
    it fails in a build without [NDEBUG]; its [while] loop is modelled with
    fuel. *)
Inductive result (A : Type) : Type :=
| Ok (a : A)
| AssertFailed
| OutOfFuel.

Arguments Ok {A} a.
Arguments AssertFailed {A}.
Arguments OutOfFuel {A}.

Global Instance result_ret : MRet result := fun A a => Ok a.

Global Instance result_bind : MBind result := fun A B k r =>
  match r with
  | Ok a => k a
  | AssertFailed => AssertFailed
  | OutOfFuel => OutOfFuel
  end.

(** ** The operating system *)

Definition raw_handle := Z.
Definition thread_id := N.

(** The broken-down local time the logger prints. *)
Record systime := {
  t_hour : N;
  t_min : N;
  t_sec : N;
  t_msec : N
}.

Inductive file_type := FILE_TYPE_CHAR | FILE_TYPE_DISK | FILE_TYPE_OTHER.

(** Result of one of the Win32 code-page conversion calls: the converted
    characters, or the value of [GetLastError]. *)
Inductive conversion (A : Type) : Type :=
| Converted (out : list A)
| ERROR_INSUFFICIENT_BUFFER
| ERROR_OTHER.

Arguments Converted {A} out.
Arguments ERROR_INSUFFICIENT_BUFFER {A}.
Arguments ERROR_OTHER {A}.

(** Modelled from the spec: the functions of [sysio.h] ([sys::write_file],
    [sys::create_file], [sys::close_file], [sys::isatty], [sys::io::err],
    the [valid] tests), which is not among the sources, and the calls of the
    C library and of the Win32 API.  They are the "output capability" of the
    specification: [open (path, append, share-mode) -> handle | failure],
    [write (handle, bytes) -> bytes-written | failure], [is_terminal
    (handle) -> bool]; failures are reported by the returned status.

    The oracles that can answer differently from call to call take the
    number of system calls made so far. *)
Record environment := {
  (* sys::write_file: does the write at this moment succeed? *)
  env_write_ok : nat -> raw_handle -> text -> bool;
  (* gettimeofday: false when it returns -1 *)
  env_gettimeofday_ok : nat -> bool;
  (* localtime_r / GetLocalTime *)
  env_localtime : nat -> systime;
  (* sys::create_file with O_APPEND|O_CREAT *)
  env_create_file : nat -> string -> option raw_handle;
  (* sys::isatty / isatty *)
  env_isatty : raw_handle -> bool;
  (* GetFileType *)
  env_file_type : raw_handle -> file_type;
  (* sys::io::err () *)
  env_err : raw_handle;
  (* sys::handle::valid (h) && sys::file_handle::valid (h) *)
  env_valid : raw_handle -> bool;
  (* GetACP() != GetConsoleOutputCP() *)
  env_codepages_differ : bool;
  (* MultiByteToWideChar (CP_ACP, ...) into a buffer of the given capacity *)
  env_MultiByteToWideChar : text -> N -> conversion N;
  (* the same call with a zero-sized buffer: the required size *)
  env_MultiByteToWideChar_size : text -> N;
  (* WideCharToMultiByte (GetConsoleOutputCP(), ...) *)
  env_WideCharToMultiByte : list N -> N -> conversion ascii;
  env_WideCharToMultiByte_size : list N -> N
}.

(** The same surroundings with another verdict on the writes. *)
Definition set_write_ok (env : environment) (ok : nat -> raw_handle -> text -> bool)
    : environment :=
  {| env_write_ok := ok;
     env_gettimeofday_ok := env_gettimeofday_ok env;
     env_localtime := env_localtime env;
     env_create_file := env_create_file env;
     env_isatty := env_isatty env;
     env_file_type := env_file_type env;
     env_err := env_err env;
     env_valid := env_valid env;
     env_codepages_differ := env_codepages_differ env;
     env_MultiByteToWideChar := env_MultiByteToWideChar env;
     env_MultiByteToWideChar_size := env_MultiByteToWideChar_size env;
     env_WideCharToMultiByte := env_WideCharToMultiByte env;
     env_WideCharToMultiByte_size := env_WideCharToMultiByte_size env |}.

(** What the logger did to the outside, in order. *)
Inductive event :=
| EvWrite (h : raw_handle) (data : text) (ok : bool)
| EvSetAttr (h : raw_handle) (attr : N)
| EvSeekEnd (h : raw_handle)
| EvClose (h : raw_handle).

(** The state of the outside: a clock that ticks with every system call,
    the attribute word of each console screen buffer, and the calls made. *)
Record world := {
  w_tick : nat;
  w_console : gmap Z N;
  w_out : list event
}.

Definition tick (w : world) : world :=
  {| w_tick := S (w_tick w); w_console := w_console w; w_out := w_out w |}.

Definition emit (e : event) (w : world) : world :=
  {| w_tick := S (w_tick w); w_console := w_console w; w_out := w_out w ++ [e] |}.

(** [sys::write_file]. *)
Definition write_file (env : environment) (h : raw_handle) (data : text) (w : world) : world * bool :=
  let ok := env_write_ok env (w_tick w) h data in
  (emit (EvWrite h data ok) w, ok).

(** [GetConsoleScreenBufferInfo]: the attribute word, when [h] is a console. *)
Definition GetConsoleScreenBufferInfo (h : raw_handle) (w : world) : option N :=
  w_console w !! h.

(** [SetConsoleTextAttribute]. *)
Definition SetConsoleTextAttribute (h : raw_handle) (attr : N) (w : world) : world :=
  {| w_tick := S (w_tick w);
     w_console := match w_console w !! h with
                  | Some _ => <[h := attr]> (w_console w)
                  | None => w_console w
                  end;
     w_out := w_out w ++ [EvSetAttr h attr] |}.

(** ** Formatting of the time stamp ([snprintf]) *)

Definition digit_char (d : N) : ascii :=
  if d <? 10 then ascii_of_N (48 + d) else ascii_of_N (87 + d).

Fixpoint digits_aux (fuel : nat) (base n : N) (acc : text) : text :=
  match fuel with
  | O => acc
  | S fuel' =>
      let acc' := digit_char (n mod base) :: acc in
      if n / base =? 0 then acc' else digits_aux fuel' base (n / base) acc'
  end.

(** The digits of [n] in [base], most significant first. *)
Definition digits (base n : N) : text := digits_aux (S (N.size_nat n)) base n [].

(** [%0<width>d], [%0<width>x], [%0<width>lu] of a non-negative value. *)
Definition zero_padded (width : nat) (base n : N) : text :=
  let d := digits base n in
  replicate (width - length d)%nat "0"%char ++ d.

(** ["%02d:%02d:%02d.%03d "], the part both targets share. *)
Definition format_clock (t : systime) : text :=
  zero_padded 2 10 (t_hour t) ++ lit ":" ++ zero_padded 2 10 (t_min t) ++ lit ":" ++
  zero_padded 2 10 (t_sec t) ++ lit "." ++ zero_padded 3 10 (t_msec t) ++ lit " ".

(** ["... [%08x] "] with [(unsigned) pthread_self()]. *)
Definition format_posix (t : systime) (tid : thread_id) : text :=
  format_clock t ++ lit "[" ++ zero_padded 8 16 (tid mod 2 ^ 32) ++ lit "] ".

(** ["... [%04lu] "] with [GetCurrentThreadId()]. *)
Definition format_win32 (t : systime) (tid : thread_id) : text :=
  format_clock t ++ lit "[" ++ zero_padded 4 10 (tid mod 2 ^ 32) ++ lit "] ".

(** [sizeof(cvtbuf)]. *)
Definition cvtbuf_size : nat := 32.

(** [snprintf (cvtbuf, 32, ...)] followed by the clamp of [rc] and
    [m_text.append (cvtbuf, rc)]: a result that fits is appended whole;
    a longer one is cut to 31 characters and the terminating NUL is
    appended with them. *)
Definition posix_stamp (formatted : text) : text :=
  if (length formatted <? cvtbuf_size)%nat then formatted
  else take (cvtbuf_size - 1)%nat formatted ++ [NUL].

(** [_snprintf (cvtbuf, 32, ...)]: no terminator is stored when the result
    does not fit, and [rc] is then set to 32. *)
Definition win32_stamp (formatted : text) : text :=
  take cvtbuf_size formatted.

(** ** The logger ([class logger : public std::streambuf]) *)

(** [struct line_buffer]; the back pointer [m_owner] is passed to each of
    its member functions instead. *)
Record line_buffer := {
  m_text : text;
  m_default_color : N;
  m_convert_cp : bool
}.

Record logger := {
  m_con : raw_handle;
  m_buffer : gmap N line_buffer;   (* thread_specific_ptr<line_buffer> *)
  m_custom_color : N;
  m_use_color : bool;
  m_prepend_time : bool;
  m_opened_file : bool
}.

Definition set_text (lb : line_buffer) (s : text) : line_buffer :=
  {| m_text := s; m_default_color := m_default_color lb; m_convert_cp := m_convert_cp lb |}.

Definition set_default_color (lb : line_buffer) (c : N) : line_buffer :=
  {| m_text := m_text lb; m_default_color := c; m_convert_cp := m_convert_cp lb |}.

(** [static const size_t s_limit = 1000]. *)
Definition s_limit : N := 1000.

(** [explicit line_buffer (logger* owner)]. *)
Definition new_line_buffer (env : environment) : line_buffer :=
  {| m_text := []; m_default_color := no_color; m_convert_cp := env_codepages_differ env |}.

(** [explicit logger (sys::raw_handle console, color_t color = -1)]. *)
Definition new_logger (env : environment) (console : raw_handle) (color : N) : logger :=
  {| m_con := console;
     m_buffer := ∅;
     m_custom_color := color mod color_t_modulus;
     m_use_color := env_isatty env console;
     m_prepend_time := true;
     m_opened_file := false |}.

Definition get_color (lg : logger) : N := m_custom_color lg.

Definition set_color (lg : logger) (attr : N) : logger :=
  {| m_con := m_con lg;
     m_buffer := m_buffer lg;
     m_custom_color := attr mod color_t_modulus;
     m_use_color := m_use_color lg;
     m_prepend_time := m_prepend_time lg;
     m_opened_file := m_opened_file lg |}.

(** [logger::buffer ()]: the calling thread's buffer, created on first use. *)
Definition buffer (env : environment) (lg : logger) (tid : thread_id) : line_buffer :=
  match m_buffer lg !! tid with
  | Some lb => lb
  | None => new_line_buffer env
  end.

(** Storing a thread's buffer back after a member function ran on it. *)
Definition with_buffer (lg : logger) (tid : thread_id) (lb : line_buffer) : logger :=
  {| m_con := m_con lg;
     m_buffer := <[tid := lb]> (m_buffer lg);
     m_custom_color := m_custom_color lg;
     m_use_color := m_use_color lg;
     m_prepend_time := m_prepend_time lg;
     m_opened_file := m_opened_file lg |}.

(** [logger::write_line]: the status of [sys::write_file] is dropped. *)
Definition write_line (env : environment) (owner : logger) (data : text) (w : world) : world :=
  fst (write_file env (m_con owner) data w).

(** [line_buffer::append_crlf]. *)
Definition append_crlf (cfg : build) (lb : line_buffer) : line_buffer :=
  match target cfg with
  | Win32 => set_text lb (m_text lb ++ [CR; LF])
  | Posix => set_text lb (m_text lb ++ [LF])
  end.

(** The [switch] over [custom_color & logg::fg_color]. *)
Definition foreground_code (custom_color : N) : option text :=
  match N.land custom_color fg_color with
  | 0 => Some (lit "30")
  | 4 => Some (lit "31")
  | 2 => Some (lit "32")
  | 6 => Some (lit "33")
  | 1 => Some (lit "34")
  | 5 => Some (lit "35")
  | 3 => Some (lit "36")
  | 7 => Some (lit "37")
  | _ => None
  end.

(** The [switch] over [custom_color & logg::bg_color]. *)
Definition background_code (custom_color : N) : option text :=
  match N.land custom_color bg_color with
  | 0 => Some (lit "40")
  | 64 => Some (lit "41")
  | 32 => Some (lit "42")
  | 96 => Some (lit "43")
  | 16 => Some (lit "44")
  | 80 => Some (lit "45")
  | 48 => Some (lit "46")
  | 112 => Some (lit "47")
  | _ => None
  end.

(** [line_buffer::set_custom_color], the ANSI variant: the sequence is
    appended to [m_text]. *)
Definition set_custom_color_posix (owner : logger) (lb : line_buffer) : line_buffer :=
  let custom_color := get_color owner in
  if no_color =? custom_color then set_default_color lb no_color
  else
    let lb := set_default_color lb custom_color in
    let seq_start := length (m_text lb) in
    let s := m_text lb ++ [ESC; "["%char] in
    let s := match foreground_code custom_color with
             | Some foreground => s ++ foreground
             | None => s
             end in
    let s := match background_code custom_color with
             | Some background =>
                 (if (length s - seq_start =? 2)%nat then s else s ++ [";"%char]) ++ background
             | None => s
             end in
    let s := if N.land custom_color (N.lor fg_bright bg_bright) =? 0 then s
             else (if (length s - seq_start =? 2)%nat then s else s ++ [";"%char]) ++ ["1"%char] in
    if (2 <? length s - seq_start)%nat then set_text lb (s ++ ["m"%char])
    else set_default_color (set_text lb (take seq_start s)) no_color.

(** [line_buffer::set_custom_color], the console-attribute variant: the
    current attribute word is saved and the custom one installed. *)
Definition set_custom_color_win32 (owner : logger) (lb : line_buffer) (w : world) : line_buffer * world :=
  let custom_color := get_color owner in
  if no_color =? custom_color then (set_default_color lb no_color, w)
  else
    match GetConsoleScreenBufferInfo (m_con owner) w with
    | Some wAttributes =>
        (set_default_color lb wAttributes,
         SetConsoleTextAttribute (m_con owner) custom_color (tick w))
    | None => (set_default_color lb no_color, tick w)
    end.

Definition set_custom_color (cfg : build) (owner : logger) (lb : line_buffer) (w : world) : line_buffer * world :=
  match target cfg with
  | Win32 => set_custom_color_win32 owner lb w
  | Posix => (set_custom_color_posix owner lb, w)
  end.

(** [line_buffer::append_time]. *)
Definition append_time (cfg : build) (env : environment) (owner : logger) (tid : thread_id)
    (lb : line_buffer) (w : world) : line_buffer * world :=
  match target cfg with
  | Win32 =>
      let time := env_localtime env (w_tick w) in
      (set_text lb (m_text lb ++ win32_stamp (format_win32 time tid)), tick w)
  | Posix =>
      let '(lb, w) := if m_use_color owner then set_custom_color cfg owner lb w else (lb, w) in
      if env_gettimeofday_ok env (w_tick w) then
        let time := env_localtime env (w_tick w) in
        (set_text lb (m_text lb ++ posix_stamp (format_posix time tid)), tick w)
      else (lb, tick w)
  end.

(** The two conversions of [write_to_console], each with its second try
    after [ERROR_INSUFFICIENT_BUFFER]; [None] is the fall back to the
    unconverted text. *)
Definition to_wide (env : environment) (s : text) : option (list N) :=
  match env_MultiByteToWideChar env s (size s) with
  | Converted (c :: wbuf) => Some (c :: wbuf)
  | Converted [] => None
  | ERROR_OTHER => None
  | ERROR_INSUFFICIENT_BUFFER =>
      let wcount := env_MultiByteToWideChar_size env s in
      match env_MultiByteToWideChar env s wcount with
      | Converted (c :: wbuf) => Some (c :: wbuf)
      | _ => None
      end
  end.

Definition to_console (env : environment) (wbuf : list N) : option text :=
  match env_WideCharToMultiByte env wbuf (N.of_nat (length wbuf)) with
  | Converted (c :: cbuf) => Some (c :: cbuf)
  | Converted [] => None
  | ERROR_OTHER => None
  | ERROR_INSUFFICIENT_BUFFER =>
      let count := env_WideCharToMultiByte_size env wbuf in
      match env_WideCharToMultiByte env wbuf count with
      | Converted (c :: cbuf) => Some (c :: cbuf)
      | _ => None
      end
  end.

(** [line_buffer::write_to_console] (Win32 only). *)
Definition write_to_console (env : environment) (owner : logger) (lb : line_buffer)
    (s : text) (w : world) : world :=
  if forallb (fun c => N_of_ascii c <=? 127) s then write_line env owner (m_text lb) w
  else
    match to_wide env s with
    | None => write_line env owner (m_text lb) w
    | Some wbuf =>
        match to_console env wbuf with
        | None => write_line env owner (m_text lb) w
        | Some cbuf => write_line env owner cbuf w
        end
    end.

(** ["\033[0m"]. *)
Definition ansi_reset : text := [ESC; "["%char; "0"%char; "m"%char].

(** [line_buffer::flush]. *)
Definition flush (cfg : build) (env : environment) (owner : logger) (lb : line_buffer)
    (w : world) : line_buffer * world :=
  match target cfg with
  | Win32 =>
      if m_use_color owner then
        (* sys::thread::scoped_lock lock (g_console_mutex): held until the
           function returns; one thread runs here, so it is always free *)
        let '(lb, w) := set_custom_color cfg owner lb w in
        let w := if m_convert_cp lb then write_to_console env owner lb (m_text lb) w
                 else write_line env owner (m_text lb) w in
        let w := if m_default_color lb =? no_color then w
                 else SetConsoleTextAttribute (m_con owner) (m_default_color lb) w in
        let w := write_line env owner [CR; LF] w in
        (set_text lb [], w)
      else
        let lb := append_crlf cfg lb in
        let w := write_line env owner (m_text lb) w in
        (set_text lb [], w)
  | Posix =>
      let lb := if negb (bool_decide (m_text lb = [])) && negb (m_default_color lb =? no_color)
                then set_text lb (m_text lb ++ ansi_reset) else lb in
      let lb := append_crlf cfg lb in
      let w := write_line env owner (m_text lb) w in
      (set_text lb [], w)
  end.

(** The [while] loop of [line_buffer::append]; [buf] is what is left of the
    caller's bytes. *)
Fixpoint append_loop (fuel : nat) (cfg : build) (env : environment) (owner : logger)
    (tid : thread_id) (lb : line_buffer) (w : world) (buf : text)
    : result (line_buffer * world * text) :=
  if size buf + size (m_text lb) <=? s_limit then Ok (lb, w, buf)
  else
    match fuel with
    | O => OutOfFuel
    | S fuel' =>
        if negb (NDEBUG cfg) && negb (size (m_text lb) <? s_limit) then AssertFailed
        else
          let chunk := N.min (size_t_sub s_limit (size (m_text lb))) (size buf) in
          let lb := set_text lb (m_text lb ++ take (N.to_nat chunk) buf) in
          let '(lb, w) := flush cfg env owner lb w in
          let buf := drop (N.to_nat chunk) buf in
          let '(lb, w) := if negb (size buf =? 0) && m_prepend_time owner
                          then append_time cfg env owner tid lb w else (lb, w) in
          append_loop fuel' cfg env owner tid lb w buf
    end.

(** [line_buffer::append]. *)
Definition append (cfg : build) (env : environment) (owner : logger) (tid : thread_id)
    (lb : line_buffer) (w : world) (buf : text) : result (line_buffer * world) :=
  let '(lb, w) := if m_prepend_time owner && bool_decide (m_text lb = [])
                  then append_time cfg env owner tid lb w else (lb, w) in
  '(lb, w, buf) ← append_loop (S (length buf)) cfg env owner tid lb w buf;
  Ok (if size buf =? 0 then lb else set_text lb (m_text lb ++ buf), w).

(** [traits_type::find (buf, size, c)]: the offset of the first [c]. *)
Fixpoint find (buf : text) (c : ascii) : option nat :=
  match buf with
  | [] => None
  | x :: rest => if Ascii.eqb x c then Some O else S <$> find rest c
  end.

(** [logger::overflow]; [None] is [traits_type::eof ()].  The returned
    [int_type] ([c], or [not_eof (c)]) carries no information and is left
    out. *)
Definition overflow (cfg : build) (env : environment) (lg : logger) (tid : thread_id)
    (w : world) (c : option ascii) : result (logger * world) :=
  match c with
  | None => Ok (lg, w)
  | Some chr =>
      if Ascii.eqb chr LF then
        let '(lb, w) := flush cfg env lg (buffer env lg tid) w in
        Ok (with_buffer lg tid lb, w)
      else
        '(lb, w) ← append cfg env lg tid (buffer env lg tid) w [chr];
        Ok (with_buffer lg tid lb, w)
  end.

(** The [for] loop of [logger::xsputn]. *)
Fixpoint xsputn_loop (fuel : nat) (cfg : build) (env : environment) (owner : logger)
    (tid : thread_id) (bufptr : line_buffer) (w : world) (buf : text)
    : result (line_buffer * world) :=
  match buf with
  | [] => Ok (bufptr, w)
  | _ :: _ =>
      match fuel with
      | O => OutOfFuel
      | S fuel' =>
          match find buf LF with
          | None => append cfg env owner tid bufptr w buf
          | Some nl =>
              '(bufptr, w) ← (if (nl =? 0)%nat then Ok (bufptr, w)
                              else append cfg env owner tid bufptr w (take nl buf));
              let '(bufptr, w) := flush cfg env owner bufptr w in
              xsputn_loop fuel' cfg env owner tid bufptr w (drop (S nl) buf)
          end
      end
  end.

(** [logger::xsputn]; it always returns [sz], which is left out. *)
Definition xsputn (cfg : build) (env : environment) (lg : logger) (tid : thread_id)
    (w : world) (buf : text) : result (logger * world) :=
  '(bufptr, w) ← xsputn_loop (length buf) cfg env lg tid (buffer env lg tid) w buf;
  Ok (with_buffer lg tid bufptr, w).

(** [sys::close_file]. *)
Definition close_file (h : raw_handle) (w : world) : world := emit (EvClose h) w.

(** [SetFilePointer (h, 0, 0, FILE_END)] / [lseek (h, 0, SEEK_END)]. *)
Definition seek_end (h : raw_handle) (w : world) : world := emit (EvSeekEnd h) w.

Definition adopt (lg : logger) (h : raw_handle) (use_color opened : bool) : logger :=
  {| m_con := h;
     m_buffer := m_buffer lg;
     m_custom_color := m_custom_color lg;
     m_use_color := use_color;
     m_prepend_time := m_prepend_time lg;
     m_opened_file := opened |}.

(** [logger::redirect (const CharT* filename)]. *)
Definition redirect (cfg : build) (env : environment) (lg : logger) (tid : thread_id)
    (w : world) (filename : string) : logger * world * bool :=
  match env_create_file env (w_tick w) filename with
  | None => (lg, tick w, false)
  | Some file =>
      let w := tick w in
      let '(lb, w) := flush cfg env lg (buffer env lg tid) w in
      let lg := with_buffer lg tid lb in
      let w := if m_opened_file lg then close_file (m_con lg) w else w in
      let w := match target cfg with
               | Win32 => seek_end file w
               | Posix => w
               end in
      (adopt lg file false true, w, true)
  end.

(** [logger::redirect (sys::raw_handle file)]. *)
Definition redirect_handle (cfg : build) (env : environment) (lg : logger) (tid : thread_id)
    (w : world) (file : raw_handle) : logger * world :=
  let '(lb, w) := flush cfg env lg (buffer env lg tid) w in
  let lg := with_buffer lg tid lb in
  let w := if m_opened_file lg then close_file (m_con lg) w else w in
  match target cfg with
  | Win32 =>
      match env_file_type env file with
      | FILE_TYPE_CHAR => (adopt lg file true false, w)
      | FILE_TYPE_DISK => (adopt lg file false false, seek_end file w)
      | FILE_TYPE_OTHER => (adopt lg file false false, w)
      end
  | Posix =>
      let use_color := env_isatty env file in
      (adopt lg file use_color false, if use_color then w else seek_end file w)
  end.

(** [logger::~logger ()]. *)
Definition delete_logger (lg : logger) (w : world) : world :=
  if m_opened_file lg then close_file (m_con lg) w else w.

(** ** Installation ([class logger_init]) and the logging macros *)

Record logger_init := {
  m_clog : option logger;
  m_cerr : option logger
}.

(** [logger_init::logger_init ()]. *)
Definition new_logger_init (env : environment) : logger_init :=
  let con := env_err env in
  if negb (env_valid env con) then {| m_clog := None; m_cerr := None |}
  else {| m_clog := Some (new_logger env con (N.lor fg_white fg_bright));
          m_cerr := Some (new_logger env con (N.lor (N.lor bg_red fg_white) fg_bright)) |}.

Definition set_clog_color (reg : logger_init) (color : N) : logger_init :=
  {| m_clog := (fun lg => set_color lg color) <$> m_clog reg; m_cerr := m_cerr reg |}.

Definition set_cerr_color (reg : logger_init) (color : N) : logger_init :=
  {| m_clog := m_clog reg; m_cerr := (fun lg => set_color lg color) <$> m_cerr reg |}.

(** Inserting [s] into [std::clog] / [std::cerr]: the bytes go to the
    installed stream buffer.  Without an installed logger the stream keeps
    its native buffer, which is outside this program. *)
Definition clog_insert (cfg : build) (env : environment) (tid : thread_id) (s : text)
    (reg : logger_init) (w : world) : result (logger_init * world) :=
  match m_clog reg with
  | None => Ok (reg, w)
  | Some lg =>
      '(lg, w) ← xsputn cfg env lg tid w s;
      Ok ({| m_clog := Some lg; m_cerr := m_cerr reg |}, w)
  end.

Definition cerr_insert (cfg : build) (env : environment) (tid : thread_id) (s : text)
    (reg : logger_init) (w : world) : result (logger_init * world) :=
  match m_cerr reg with
  | None => Ok (reg, w)
  | Some lg =>
      '(lg, w) ← xsputn cfg env lg tid w s;
      Ok ({| m_clog := m_clog reg; m_cerr := Some lg |}, w)
  end.

Definition statement := logger_init -> world -> result (logger_init * world).

(** [EXT_CLOG_IF (level)] and [EXT_CERR_IF (level)] in front of a statement. *)
Definition EXT_CLOG_IF (cfg : build) (lv : level) (body : statement) : statement :=
  fun reg w => if negb (is_clog_active cfg lv) then Ok (reg, w) else body reg w.

Definition EXT_CERR_IF (cfg : build) (lv : level) (body : statement) : statement :=
  fun reg w => if negb (is_cerr_active cfg lv) then Ok (reg, w) else body reg w.

(** [LTRACE_ << s], ..., [LCRIT_ << s]. *)
Definition LTRACE_ cfg env tid s : statement := EXT_CLOG_IF cfg trace (clog_insert cfg env tid s).
Definition LDEBUG_ cfg env tid s : statement := EXT_CLOG_IF cfg debug (clog_insert cfg env tid s).
Definition LINFO_ cfg env tid s : statement := EXT_CLOG_IF cfg info (clog_insert cfg env tid s).
Definition LWARN_ cfg env tid s : statement := EXT_CERR_IF cfg warn (cerr_insert cfg env tid s).
Definition LERR_ cfg env tid s : statement := EXT_CERR_IF cfg error (cerr_insert cfg env tid s).
Definition LCRIT_ cfg env tid s : statement := EXT_CERR_IF cfg crit (cerr_insert cfg env tid s).

(** ** Vocabulary of the statements *)

(** The bytes handed to [sys::write_file] for handle [h], in order. *)
Fixpoint written (h : raw_handle) (evs : list event) : text :=
  match evs with
  | [] => []
  | EvWrite h' data _ :: rest => if bool_decide (h' = h) then data ++ written h rest else written h rest
  | _ :: rest => written h rest
  end.

(** The handle an event is about. *)
Definition event_handle (e : event) : raw_handle :=
  match e with
  | EvWrite h _ _ => h
  | EvSetAttr h _ => h
  | EvSeekEnd h => h
  | EvClose h => h
  end.

(** [w'] is [w] after some more calls, all of them on handle [h]. *)
Definition continues_on (h : raw_handle) (w w' : world) : Prop :=
  exists evs, w_out w' = w_out w ++ evs /\ Forall (fun e => event_handle e = h) evs.

(** The digit that the two [switch]es put after ['3'] and ['4']. *)
Definition ansi_digit (bits : N) : ascii :=
  match bits with
  | 0 => "0" | 4 => "1" | 2 => "2" | 6 => "3" | 1 => "4" | 5 => "5" | 3 => "6" | _ => "7"
  end%char.

Definition is_bright (color : N) : bool :=
  negb (N.land color (N.lor fg_bright bg_bright) =? 0).

(** [ESC [ 3f ; 4b m] or [ESC [ 3f ; 4b ; 1 m]. *)
Definition ansi_sequence (color : N) : text :=
  [ESC; "["; "3"; ansi_digit (color mod 8); ";"; "4"; ansi_digit ((color / 16) mod 8)]%char
  ++ (if is_bright color then [";"; "1"]%char else []) ++ ["m"%char].

(** What [append_time] puts in front of a line that begins when the clock
    shows [n]: the colour sequence (ANSI target, colour in use) and the
    time stamp. *)
Definition color_prefix (cfg : build) (owner : logger) : text :=
  match target cfg with
  | Win32 => []
  | Posix =>
      if m_use_color owner && negb (no_color =? get_color owner)
      then ansi_sequence (get_color owner) else []
  end.

Definition stamp (cfg : build) (env : environment) (tid : thread_id) (n : nat) : text :=
  match target cfg with
  | Win32 => win32_stamp (format_win32 (env_localtime env n) tid)
  | Posix =>
      if env_gettimeofday_ok env n then posix_stamp (format_posix (env_localtime env n) tid)
      else []
  end.

Definition line_prefix (cfg : build) (env : environment) (owner : logger) (tid : thread_id)
    (n : nat) : text :=
  color_prefix cfg owner ++ stamp cfg env tid n.

(** [m_default_color] once [append_time] has run. *)
Definition begin_color (cfg : build) (owner : logger) (lb : line_buffer) : N :=
  match target cfg with
  | Win32 => m_default_color lb
  | Posix => if m_use_color owner then get_color owner else m_default_color lb
  end.

(** The configurations in which [flush] is a single [write_line]. *)
Definition single_write (cfg : build) (owner : logger) : bool :=
  match target cfg with
  | Win32 => negb (m_use_color owner)
  | Posix => true
  end.

(** What such a [flush] puts behind a non-empty line. *)
Definition line_suffix (cfg : build) (default_color : N) : text :=
  match target cfg with
  | Win32 => [CR; LF]
  | Posix => (if default_color =? no_color then [] else ansi_reset) ++ [LF]
  end.

(** The line terminator alone. *)
Definition line_terminator (cfg : build) : text :=
  match target cfg with
  | Win32 => [CR; LF]
  | Posix => [LF]
  end.

(** An event that is one flushed line with the given content: a write to
    the logger's handle of a prefix, the content and the suffix. *)
Definition is_line (cfg : build) (env : environment) (owner : logger) (tid : thread_id)
    (default_color : N) (e : event) (content : text) : Prop :=
  exists n ok,
    e = EvWrite (m_con owner)
          (line_prefix cfg env owner tid n ++ content ++ line_suffix cfg default_color) ok.

(** Only 7-bit characters: [write_to_console] then writes the text as it is. *)
Definition plain (s : text) : bool := forallb (fun c => N_of_ascii c <=? 127) s.

(** What [flush] puts behind the text. *)
Definition flush_tail (cfg : build) (lb : line_buffer) : text :=
  match target cfg with
  | Win32 => [CR; LF]
  | Posix =>
      (if negb (bool_decide (m_text lb = [])) && negb (m_default_color lb =? no_color)
       then ansi_reset else []) ++ [LF]
  end.

(** Rounded-up quotient. *)
Definition ceil_div (a b : nat) : nat := ((a + b - 1) / b)%nat.

(** The first testable property of the specification, read literally: the
    lines that come out of appending [buf] to [lb] (and of the flush that
    ends the line, when [with_flush]) number [ceil (L / 1000)], carry at
    most 1000 bytes of content each, and their contents are the input. *)
Definition split_as_claimed (with_flush : bool) (cfg : build) (env : environment)
    (owner : logger) (tid : thread_id) (lb : line_buffer) (w : world) (buf : text) : Prop :=
  exists lb1 w1 evs contents,
    append cfg env owner tid lb w buf = Ok (lb1, w1) /\
    w_out (if with_flush then (flush cfg env owner lb1 w1).2 else w1) = w_out w ++ evs /\
    Forall2 (is_line cfg env owner tid (begin_color cfg owner lb)) evs contents /\
    length contents = ceil_div (length buf) 1000 /\
    Forall (fun c => (length c <= 1000)%nat) contents /\
    concat contents = buf.

(** ** A sample machine, for the examples *)

Definition sample_time : systime :=
  {| t_hour := 12; t_min := 34; t_sec := 56; t_msec := 789 |}.

Definition sample_env : environment :=
  {| env_write_ok := fun _ _ _ => true;
     env_gettimeofday_ok := fun _ => true;
     env_localtime := fun _ => sample_time;
     env_create_file := fun _ _ => None;
     env_isatty := fun h => bool_decide (h = 2%Z);
     env_file_type := fun _ => FILE_TYPE_CHAR;
     env_err := 2%Z;
     env_valid := fun _ => true;
     env_codepages_differ := false;
     env_MultiByteToWideChar := fun _ _ => ERROR_OTHER;
     env_MultiByteToWideChar_size := fun _ => 0;
     env_WideCharToMultiByte := fun _ _ => ERROR_OTHER;
     env_WideCharToMultiByte_size := fun _ => 0 |}.

Definition posix_build : build := {| target := Posix; NDEBUG := false; EXT_LOG_LEVEL := info |}.
Definition win32_build : build := {| target := Win32; NDEBUG := false; EXT_LOG_LEVEL := info |}.
Definition warn_build : build := {| target := Posix; NDEBUG := false; EXT_LOG_LEVEL := warn |}.

(** Nothing has happened yet; handle 2 is a console showing attribute 7. *)
Definition sample_world : world :=
  {| w_tick := 0; w_console := {[ 2%Z := 7 ]}; w_out := [] |}.

(** A logger on a terminal (handle 2) with the colour of [std::clog], and
    one writing to a file (handle 5) without colour. *)
Definition tty_logger : logger := new_logger sample_env 2%Z EXT_LOG_COLOR.
Definition file_logger : logger := new_logger sample_env 5%Z no_color.

Definition sample_thread : thread_id := 43981.

(** ** Vocabulary of the further properties *)

(** Lines put into a stream one after the other, each ended by a newline. *)
Definition join_lines (lines : list text) : text :=
  concat (map (fun l => l ++ [LF]) lines).

(** The event that a line leaves when it is flushed: an empty line is the
    terminator alone, any other one is prefix, content and suffix. *)
Definition flushed_as (cfg : build) (env : environment) (owner : logger) (tid : thread_id)
    (default_color : N) (e : event) (l : text) : Prop :=
  match l with
  | [] => exists ok, e = EvWrite (m_con owner) (line_terminator cfg) ok
  | _ :: _ => is_line cfg env owner tid default_color e l
  end.

(** The handles closed by a sequence of calls, in order. *)
Definition closed (evs : list event) : list raw_handle :=
  omap (fun e => match e with EvClose h => Some h | _ => None end) evs.

(** The settings of a logger, which the stream functions leave alone. *)
Definition same_settings (lg lg' : logger) : Prop :=
  m_con lg' = m_con lg /\
  m_custom_color lg' = m_custom_color lg /\
  m_use_color lg' = m_use_color lg /\
  m_prepend_time lg' = m_prepend_time lg /\
  m_opened_file lg' = m_opened_file lg.

(** The sample machine with a file system that opens every name as
    handle 7. *)
Definition opening_env : environment :=
  {| env_write_ok := env_write_ok sample_env;
     env_gettimeofday_ok := env_gettimeofday_ok sample_env;
     env_localtime := env_localtime sample_env;
     env_create_file := fun _ _ => Some 7%Z;
     env_isatty := env_isatty sample_env;
     env_file_type := fun h => if bool_decide (h = 2%Z) then FILE_TYPE_CHAR else FILE_TYPE_DISK;
     env_err := env_err sample_env;
     env_valid := env_valid sample_env;
     env_codepages_differ := env_codepages_differ sample_env;
     env_MultiByteToWideChar := env_MultiByteToWideChar sample_env;
     env_MultiByteToWideChar_size := env_MultiByteToWideChar_size sample_env;
     env_WideCharToMultiByte := env_WideCharToMultiByte sample_env;
     env_WideCharToMultiByte_size := env_WideCharToMultiByte_size sample_env |}.

(** The sample machine whose standard error is not a valid handle. *)
Definition closed_stderr_env : environment :=
  {| env_write_ok := env_write_ok sample_env;
     env_gettimeofday_ok := env_gettimeofday_ok sample_env;
     env_localtime := env_localtime sample_env;
     env_create_file := env_create_file sample_env;
     env_isatty := env_isatty sample_env;
     env_file_type := env_file_type sample_env;
     env_err := env_err sample_env;
     env_valid := fun _ => false;
     env_codepages_differ := env_codepages_differ sample_env;
     env_MultiByteToWideChar := env_MultiByteToWideChar sample_env;
     env_MultiByteToWideChar_size := env_MultiByteToWideChar_size sample_env;
     env_WideCharToMultiByte := env_WideCharToMultiByte sample_env;
     env_WideCharToMultiByte_size := env_WideCharToMultiByte_size sample_env |}.

Definition ndebug_build : build := {| target := Posix; NDEBUG := true; EXT_LOG_LEVEL := info |}.

(** The handle that the logger has to close: the one it opened itself. *)
Definition owned (lg : logger) : list raw_handle :=
  if m_opened_file lg then [m_con lg] else [].

(** An event without the verdict of the write. *)
Definition attempt (e : event) : event :=
  match e with
  | EvWrite h data _ => EvWrite h data true
  | _ => e
  end.

(** Two worlds in which the same calls were made, whatever the writes
    reported. *)
Definition same_calls (w1 w2 : world) : Prop :=
  w_tick w1 = w_tick w2 /\
  w_console w1 = w_console w2 /\
  map attempt (w_out w1) = map attempt (w_out w2).

(** Two outcomes that agree but for the verdicts of the writes. *)
Definition same_outcome {A : Type} (r1 r2 : result (A * world)) : Prop :=
  match r1, r2 with
  | Ok (a1, w1), Ok (a2, w2) => a1 = a2 /\ same_calls w1 w2
  | AssertFailed, AssertFailed => True
  | OutOfFuel, OutOfFuel => True
  | _, _ => False
  end.

(** * Properties *)

(** ** The colour model *)

Lemma grown (t u : text) : (length (t ++ u) - length t)%nat = length u.
Proof. rewrite length_app. lia. Qed.

Lemma foreground_code_digit (c : N) :
  foreground_code c = Some ["3"%char; ansi_digit (c mod 8)].
Proof.
  unfold foreground_code, fg_color, fg_white.
  change 7 with (N.ones 3). rewrite N.land_ones. change (2 ^ 3) with 8.
  pose proof (N.mod_lt c 8 ltac:(lia)) as Hlt.
  destruct (c mod 8) as [|[[[p|p|]|[p|p|]|]|[[p|p|]|[p|p|]|]|]]; try reflexivity; lia.
Qed.

Lemma land_bg_color (c : N) : N.land c 112 = 16 * ((c / 16) mod 8).
Proof.
  transitivity (N.shiftl (N.land (N.shiftr c 4) (N.ones 3)) 4).
  - change 112 with (N.shiftl (N.ones 3) 4).
    apply N.bits_inj. intros n.
    rewrite N.land_spec.
    destruct (N.lt_ge_cases n 4) as [Hn|Hn].
    + rewrite !N.shiftl_spec_low by exact Hn. apply andb_false_r.
    + rewrite !N.shiftl_spec_high' by exact Hn.
      rewrite N.land_spec, N.shiftr_spec'.
      replace (n - 4 + 4) with n by lia. reflexivity.
  - rewrite N.land_ones, N.shiftr_div_pow2, N.shiftl_mul_pow2. apply N.mul_comm.
Qed.

Lemma background_code_digit (c : N) :
  background_code c = Some ["4"%char; ansi_digit ((c / 16) mod 8)].
Proof.
  unfold background_code, bg_color, bg_white.
  rewrite land_bg_color.
  pose proof (N.mod_lt (c / 16) 8 ltac:(lia)) as Hlt.
  destruct ((c / 16) mod 8) as [|[[[p|p|]|[p|p|]|]|[[p|p|]|[p|p|]|]|]]; try reflexivity; lia.
Qed.

(** The ANSI [set_custom_color] in closed form, for a colour that is not
    the sentinel. *)
Lemma set_custom_color_posix_sequence (owner : logger) (lb : line_buffer) :
  get_color owner <> no_color ->
  set_custom_color_posix owner lb =
    set_text (set_default_color lb (get_color owner))
             (m_text lb ++ ansi_sequence (get_color owner)).
Proof.
  intros Hc. unfold set_custom_color_posix.
  destruct (N.eqb_spec no_color (get_color owner)) as [E|_]; [congruence|].
  rewrite foreground_code_digit, background_code_digit. cbn [m_text set_default_color].
  set (t := m_text lb). set (c := get_color owner).
  unfold ansi_sequence, is_bright.
  destruct (N.land c (N.lor fg_bright bg_bright) =? 0); cbn [negb];
    repeat first [ rewrite <- (app_assoc t) | rewrite grown
                 | progress cbn [length app Nat.eqb Nat.ltb Nat.leb] ];
    reflexivity.
Qed.

(** ** Beginning and ending a line *)

Lemma set_text_id (lb : line_buffer) : set_text lb (m_text lb) = lb.
Proof. destruct lb; reflexivity. Qed.

Lemma set_default_color_id (lb : line_buffer) : set_default_color lb (m_default_color lb) = lb.
Proof. destruct lb; reflexivity. Qed.

(** [append_time] in closed form. *)
Lemma append_time_prefix cfg env owner tid lb w :
  append_time cfg env owner tid lb w =
    (set_text (set_default_color lb (begin_color cfg owner lb))
              (m_text lb ++ line_prefix cfg env owner tid (w_tick w)),
     tick w).
Proof.
  unfold append_time, line_prefix, color_prefix, stamp, begin_color, set_custom_color.
  destruct (target cfg); cbn [app].
  - rewrite set_default_color_id. reflexivity.
  - destruct (m_use_color owner); cbn [andb].
    + destruct (N.eqb_spec no_color (get_color owner)) as [E|E]; cbn [negb].
      * unfold set_custom_color_posix. rewrite <- E, N.eqb_refl. cbn [app].
        destruct (env_gettimeofday_ok env (w_tick w)); [reflexivity|].
        rewrite app_nil_r. destruct lb; reflexivity.
      * rewrite set_custom_color_posix_sequence by congruence.
        destruct (env_gettimeofday_ok env (w_tick w)); cbn [m_text set_text].
        -- rewrite <- app_assoc. reflexivity.
        -- rewrite app_nil_r. reflexivity.
    + rewrite set_default_color_id.
      destruct (env_gettimeofday_ok env (w_tick w)); [reflexivity|].
      rewrite app_nil_r, set_text_id. reflexivity.
Qed.

Lemma ansi_sequence_length (c : N) : (length (ansi_sequence c) <= 10)%nat.
Proof. unfold ansi_sequence. destruct (is_bright c); cbn; lia. Qed.

Lemma posix_stamp_length (s : text) : (length (posix_stamp s) <= 32)%nat.
Proof.
  unfold posix_stamp, cvtbuf_size.
  destruct (Nat.ltb_spec (length s) 32) as [H|H]; [lia|].
  rewrite length_app, length_take. cbn [length]. lia.
Qed.

Lemma win32_stamp_length (s : text) : (length (win32_stamp s) <= 32)%nat.
Proof. unfold win32_stamp, cvtbuf_size. rewrite length_take. lia. Qed.

(** A prefix is short: at most 10 bytes of colour and 32 of time stamp. *)
Lemma line_prefix_length cfg env owner tid n :
  (length (line_prefix cfg env owner tid n) <= 42)%nat.
Proof.
  unfold line_prefix, color_prefix, stamp. rewrite length_app.
  destruct (target cfg).
  - pose proof (win32_stamp_length (format_win32 (env_localtime env n) tid)). cbn [length]. lia.
  - pose proof (ansi_sequence_length (get_color owner)).
    pose proof (posix_stamp_length (format_posix (env_localtime env n) tid)).
    destruct (m_use_color owner && negb (no_color =? get_color owner)),
             (env_gettimeofday_ok env n); cbn [length]; lia.
Qed.

(** [flush] leaves an empty text, whatever the target and whatever the
    writes report. *)
Lemma flush_text cfg env owner lb w : m_text (flush cfg env owner lb w).1 = [].
Proof.
  unfold flush.
  destruct (target cfg).
  - destruct (m_use_color owner).
    + destruct (set_custom_color cfg owner lb w) as [lb' w']. reflexivity.
    + reflexivity.
  - reflexivity.
Qed.

(** Where [flush] is one write: the line is the text and its suffix. *)
Lemma flush_single_write cfg env owner lb w :
  single_write cfg owner = true ->
  m_text lb <> [] ->
  flush cfg env owner lb w =
    (set_text lb [],
     write_line env owner (m_text lb ++ line_suffix cfg (m_default_color lb)) w).
Proof.
  unfold single_write, flush, line_suffix, append_crlf. intros Hs Hne.
  destruct (target cfg).
  - destruct (m_use_color owner); [discriminate|]. reflexivity.
  - rewrite bool_decide_eq_false_2 by exact Hne. cbn [negb andb].
    destruct (m_default_color lb =? no_color); cbn [negb m_text set_text app].
    + reflexivity.
    + rewrite <- app_assoc. reflexivity.
Qed.

(** The same for an empty text: the terminator alone is written. *)
Lemma flush_empty cfg env owner lb w :
  single_write cfg owner = true ->
  m_text lb = [] ->
  flush cfg env owner lb w = (lb, write_line env owner (line_terminator cfg) w).
Proof.
  unfold single_write, flush, line_terminator, append_crlf. intros Hs He.
  destruct lb as [t d cp]. cbn in He. subst t.
  destruct (target cfg).
  - destruct (m_use_color owner); [discriminate|]. reflexivity.
  - reflexivity.
Qed.

(** ** The length cap of [append] *)

Lemma size_app (s t : text) : size (s ++ t) = size s + size t.
Proof. unfold size. rewrite length_app. lia. Qed.

Lemma size_nil_iff (s : text) : size s = 0 <-> s = [].
Proof. unfold size. destruct s; cbn; split; intros; try reflexivity; try discriminate; lia. Qed.

Lemma size_t_sub_small (a b : N) : b <= a -> a < size_t_modulus -> size_t_sub a b = a - b.
Proof.
  unfold size_t_sub. intros Hb Ha.
  rewrite (N.mod_small b) by lia.
  replace (a + size_t_modulus - b) with (a - b + 1 * size_t_modulus) by lia.
  rewrite N.Div0.mod_add. apply N.mod_small. lia.
Qed.

(** One unfolding of the loop. *)
Lemma append_loop_unfold fuel cfg env owner tid lb w buf :
  append_loop fuel cfg env owner tid lb w buf =
    if size buf + size (m_text lb) <=? s_limit then Ok (lb, w, buf)
    else
      match fuel with
      | O => OutOfFuel
      | S fuel' =>
          if negb (NDEBUG cfg) && negb (size (m_text lb) <? s_limit) then AssertFailed
          else
            let chunk := N.min (size_t_sub s_limit (size (m_text lb))) (size buf) in
            let lb := set_text lb (m_text lb ++ take (N.to_nat chunk) buf) in
            let '(lb, w) := flush cfg env owner lb w in
            let buf := drop (N.to_nat chunk) buf in
            let '(lb, w) := if negb (size buf =? 0) && m_prepend_time owner
                            then append_time cfg env owner tid lb w else (lb, w) in
            append_loop fuel' cfg env owner tid lb w buf
      end.
Proof. destruct fuel; reflexivity. Qed.

(** After a flush, with or without a new time stamp, the text is short. *)
Lemma restart_short cfg env owner tid (b : bool) lb w :
  m_text lb = [] ->
  size (m_text (if b then append_time cfg env owner tid lb w else (lb, w)).1) <= 42.
Proof.
  intros He. destruct b.
  - rewrite append_time_prefix. cbn [fst m_text set_text]. rewrite He. cbn [app].
    pose proof (line_prefix_length cfg env owner tid (w_tick w)). unfold size. lia.
  - cbn [fst]. rewrite He. unfold size. cbn [length]. lia.
Qed.

(** From a text below the cap the loop ends, with fuel to spare, and what it
    leaves fits under the cap. *)
Lemma append_loop_returns cfg env owner tid fuel :
  forall lb w buf,
    (length buf <= fuel)%nat ->
    size (m_text lb) < s_limit ->
    exists lb' w' rest,
      append_loop fuel cfg env owner tid lb w buf = Ok (lb', w', rest) /\
      size rest + size (m_text lb') <= s_limit.
Proof.
  induction fuel as [|fuel IH]; intros lb w buf Hfuel Htext; rewrite append_loop_unfold.
  - destruct (N.leb_spec (size buf + size (m_text lb)) s_limit) as [Hfit|Hover].
    + eauto.
    + exfalso. unfold size, s_limit in *. lia.
  - destruct (N.leb_spec (size buf + size (m_text lb)) s_limit) as [Hfit|Hover].
    + eauto.
    + destruct (N.ltb_spec (size (m_text lb)) s_limit) as [_|Hge]; [|lia].
      rewrite andb_false_r. cbv zeta.
      rewrite size_t_sub_small by (unfold s_limit, size_t_modulus in *; lia).
      set (chunk := N.min (s_limit - size (m_text lb)) (size buf)).
      destruct (flush cfg env owner _ w) as [lb1 w1] eqn:Hflush.
      pose proof (flush_text cfg env owner
        (set_text lb (m_text lb ++ take (N.to_nat chunk) buf)) w) as Hempty.
      rewrite Hflush in Hempty. cbn [fst] in Hempty.
      set (buf' := drop (N.to_nat chunk) buf).
      pose proof (restart_short cfg env owner tid
        (negb (size buf' =? 0) && m_prepend_time owner) lb1 w1 Hempty) as Hshort.
      destruct (if negb (size buf' =? 0) && m_prepend_time owner
                then append_time cfg env owner tid lb1 w1 else (lb1, w1)) as [lb2 w2].
      cbn [fst] in Hshort.
      apply IH.
      * subst buf' chunk. rewrite length_drop. unfold size, s_limit in *. lia.
      * unfold s_limit. lia.
Qed.

(** From any text: the loop ends; it stops on the assertion only in a
    build with assertions and a text already at the cap. *)
Lemma append_loop_outcome cfg env owner tid lb w buf :
  match append_loop (S (length buf)) cfg env owner tid lb w buf with
  | Ok (lb', _, rest) => size rest + size (m_text lb') <= s_limit
  | AssertFailed => NDEBUG cfg = false /\ s_limit <= size (m_text lb)
  | OutOfFuel => False
  end.
Proof.
  rewrite append_loop_unfold.
  destruct (N.leb_spec (size buf + size (m_text lb)) s_limit) as [Hfit|Hover]; [exact Hfit|].
  destruct (NDEBUG cfg) eqn:Hnd, (N.ltb_spec (size (m_text lb)) s_limit) as [Hlt|Hge];
    cbn [negb andb]; try (split; [reflexivity|exact Hge]); cbv zeta.
  all: set (chunk := N.min _ (size buf)).
  all: destruct (flush cfg env owner _ w) as [lb1 w1] eqn:Hflush.
  all: pose proof (flush_text cfg env owner
        (set_text lb (m_text lb ++ take (N.to_nat chunk) buf)) w) as Hempty.
  all: rewrite Hflush in Hempty; cbn [fst] in Hempty.
  all: set (buf' := drop (N.to_nat chunk) buf).
  all: pose proof (restart_short cfg env owner tid
        (negb (size buf' =? 0) && m_prepend_time owner) lb1 w1 Hempty) as Hshort.
  all: destruct (if negb (size buf' =? 0) && m_prepend_time owner
                then append_time cfg env owner tid lb1 w1 else (lb1, w1)) as [lb2 w2].
  all: cbn [fst] in Hshort.
  all: destruct (append_loop_returns cfg env owner tid (length buf) lb2 w2 buf')
         as (lb' & w' & rest & -> & Hbound);
       [ subst buf'; rewrite length_drop; lia | unfold s_limit; lia | exact Hbound ].
Qed.

(** [append] when everything fits: the bytes are added behind the text, or
    behind a fresh prefix if the text was empty. *)
Lemma append_continues cfg env owner tid lb w buf :
  m_text lb <> [] ->
  size buf + size (m_text lb) <= s_limit ->
  append cfg env owner tid lb w buf = Ok (set_text lb (m_text lb ++ buf), w).
Proof.
  intros Hne Hfit. unfold append.
  rewrite bool_decide_eq_false_2 by exact Hne. rewrite andb_false_r.
  rewrite append_loop_unfold.
  destruct (N.leb_spec (size buf + size (m_text lb)) s_limit) as [_|Hover]; [|lia].
  cbn [mbind result_bind].
  destruct (N.eqb_spec (size buf) 0) as [E|_]; [|reflexivity].
  apply size_nil_iff in E. subst buf. rewrite app_nil_r, set_text_id. reflexivity.
Qed.

Lemma append_begins cfg env owner tid lb w buf :
  m_prepend_time owner = true ->
  m_text lb = [] ->
  size buf <= 958 ->
  append cfg env owner tid lb w buf =
    Ok (set_text (set_default_color lb (begin_color cfg owner lb))
                 (line_prefix cfg env owner tid (w_tick w) ++ buf),
        tick w).
Proof.
  intros Hp He Hfit. unfold append.
  rewrite Hp, bool_decide_eq_true_2 by exact He. cbn [andb].
  rewrite append_time_prefix, He. cbn [app].
  pose proof (line_prefix_length cfg env owner tid (w_tick w)) as Hlen.
  rewrite append_loop_unfold. cbn [m_text set_text].
  destruct (N.leb_spec (size buf + size (line_prefix cfg env owner tid (w_tick w))) s_limit)
    as [_|Hover]; [|unfold size, s_limit in *; lia].
  cbn [mbind result_bind m_text set_text].
  destruct (N.eqb_spec (size buf) 0) as [E|_]; [|reflexivity].
  apply size_nil_iff in E. subst buf. rewrite app_nil_r. reflexivity.
Qed.

(** ** Splitting a long input *)

Lemma write_line_out env owner data w :
  w_out (write_line env owner data w) =
    w_out w ++ [EvWrite (m_con owner) data (env_write_ok env (w_tick w) (m_con owner) data)].
Proof. reflexivity. Qed.

Lemma begin_color_stable cfg owner lb lb' :
  m_default_color lb' = begin_color cfg owner lb ->
  begin_color cfg owner lb' = begin_color cfg owner lb.
Proof.
  unfold begin_color. destruct (target cfg); [tauto|].
  destruct (m_use_color owner); tauto.
Qed.

Section Splitting.

Variables (cfg : build) (env : environment) (owner : logger) (tid : thread_id).
(* every line prefix has the same length [p] *)
Variable p : nat.
(* the colour in force at the end of each line *)
Variable d : N.

Hypothesis flush_is_one_write : single_write cfg owner = true.
Hypothesis stamps : m_prepend_time owner = true.
Hypothesis uniform : forall n, length (line_prefix cfg env owner tid n) = p.

Let room : nat := (1000 - p)%nat.

Lemma room_positive : (958 <= room <= 1000)%nat.
Proof.
  pose proof (line_prefix_length cfg env owner tid 0) as H.
  rewrite uniform in H. unfold room. lia.
Qed.

(** The loop on a buffer that holds a fresh prefix: it flushes full
    lines of [room] bytes each and stops with a non-empty rest. *)
Lemma append_loop_splits fuel :
  forall lb w buf n0,
    m_text lb = line_prefix cfg env owner tid n0 ->
    m_default_color lb = d ->
    begin_color cfg owner lb = d ->
    buf <> [] ->
    (length buf <= fuel)%nat ->
    exists lb' w' rest evs contents n',
      append_loop fuel cfg env owner tid lb w buf = Ok (lb', w', rest) /\
      w_out w' = w_out w ++ evs /\
      Forall2 (is_line cfg env owner tid d) evs contents /\
      Forall (fun c => length c = room) contents /\
      concat contents ++ rest = buf /\
      (0 < length rest <= room)%nat /\
      m_text lb' = line_prefix cfg env owner tid n' /\
      m_default_color lb' = d.
Proof.
  pose proof room_positive as Hroom.
  induction fuel as [|fuel IH]; intros lb w buf n0 Htext Hd Hbegin Hne Hfuel.
  { destruct buf; [congruence|]. cbn in Hfuel. lia. }
  assert (Hlen : (0 < length buf)%nat) by (destruct buf; [congruence|cbn; lia]).
  rewrite append_loop_unfold. rewrite Htext.
  unfold size at 1 2. rewrite uniform.
  destruct (N.leb_spec (N.of_nat (length buf) + N.of_nat p) s_limit) as [Hfit|Hover].
  - exists lb, w, buf, [], [], n0. cbn [concat app].
    rewrite app_nil_r. repeat split; auto; try constructor.
    unfold room, s_limit in *. lia.
  - assert (Hp : size (line_prefix cfg env owner tid n0) < s_limit).
    { unfold size. rewrite uniform. unfold room, s_limit in *. lia. }
    destruct (N.ltb_spec (size (line_prefix cfg env owner tid n0)) s_limit) as [_|Hge]; [|lia].
    rewrite andb_false_r. cbv zeta.
    rewrite size_t_sub_small by (unfold s_limit, size_t_modulus in *; lia).
    assert (Hchunk : N.to_nat (N.min (s_limit - size (line_prefix cfg env owner tid n0))
                                     (size buf)) = room).
    { unfold size. rewrite uniform. unfold room, s_limit in *. lia. }
    rewrite Hchunk.
    rewrite flush_single_write; [|exact flush_is_one_write|].
    2:{ cbn [m_text set_text]. intros E. apply (f_equal length) in E.
        rewrite length_app, length_take in E. cbn in E. lia. }
    cbn [m_text set_text m_default_color].
    assert (Hrest : drop room buf <> []).
    { intros E. apply (f_equal length) in E. rewrite length_drop in E. cbn in E.
      unfold room, s_limit in *. lia. }
    assert (Hnz : (size (drop room buf) =? 0) = false).
    { apply N.eqb_neq. intros E. apply size_nil_iff in E. congruence. }
    rewrite Hnz, stamps. cbn [negb andb].
    rewrite append_time_prefix. cbn [m_text set_text app].
    set (w1 := write_line env owner _ w).
    set (lb1 := set_text (set_default_color (set_text (set_text lb _) []) _) _).
    destruct (IH lb1 (tick w1) (drop room buf) (w_tick w1))
      as (lb' & w' & rest & evs & contents & n' & Hrun & Hout & Hlines & Hfull & Hcat & Hr & Ht & Hd');
      try reflexivity.
    + subst lb1. cbn [m_default_color set_text set_default_color].
      unfold begin_color in *. cbn [m_default_color set_text].
      destruct (target cfg); [exact Hd|]. destruct (m_use_color owner); [exact Hbegin|exact Hd].
    + subst lb1. unfold begin_color in *. cbn [m_default_color set_text set_default_color].
      destruct (target cfg); [exact Hd|]. destruct (m_use_color owner); [exact Hbegin|exact Hd].
    + exact Hrest.
    + rewrite length_drop. lia.
    + exists lb', w', rest, (EvWrite (m_con owner)
          (line_prefix cfg env owner tid n0 ++ take room buf ++ line_suffix cfg d)
          (env_write_ok env (w_tick w) (m_con owner)
             ((line_prefix cfg env owner tid n0 ++ take room buf) ++ line_suffix cfg d)) :: evs),
        (take room buf :: contents), n'.
      split; [exact Hrun|].
      split.
      { rewrite Hout. subst w1. cbn [w_out tick]. rewrite write_line_out, Hd.
        rewrite <- !app_assoc. reflexivity. }
      split.
      { constructor; [|exact Hlines]. eexists _, _. reflexivity. }
      split.
      { constructor; [|exact Hfull]. rewrite length_take. unfold room, s_limit in *. lia. }
      split.
      { cbn [concat]. rewrite <- app_assoc, Hcat. apply take_drop. }
      auto.
Qed.

End Splitting.

Lemma concat_length_uniform (r : nat) (l : list text) :
  Forall (fun c => length c = r) l -> length (concat l) = (length l * r)%nat.
Proof.
  induction 1 as [|c l Hc _ IH]; [reflexivity|].
  cbn [concat length]. rewrite length_app, IH, Hc. lia.
Qed.

Lemma ceil_div_full_lines (k r room : nat) :
  (0 < r <= room)%nat -> ceil_div (k * room + r) room = S k.
Proof.
  intros Hr. unfold ceil_div. symmetry.
  apply Nat.div_unique with (r := (r - 1)%nat); lia.
Qed.

(** C1, as amended: the cap of 1000 bytes counts the prefix.  An input of
    more than 1000 bytes appended to an empty buffer and then flushed comes
    out as [ceil (L / (1000 - p))] lines, where [p] is the length of the
    prefix of a line (24 bytes for a plain time stamp); all but the last of
    them are flushed by [append] itself; each line carries at most
    [1000 - p] bytes of the input, and the contents, in order, are the
    input. *)
Theorem long_append_splits_at_cap_with_prefix
    cfg env owner tid lb w (buf : text) (p : nat) :
  single_write cfg owner = true ->
  m_prepend_time owner = true ->
  m_text lb = [] ->
  (forall n, length (line_prefix cfg env owner tid n) = p) ->
  (1000 < length buf)%nat ->
  exists lb1 w1 lb2 w2 evs contents,
    append cfg env owner tid lb w buf = Ok (lb1, w1) /\
    flush cfg env owner lb1 w1 = (lb2, w2) /\
    length (w_out w1) = (length (w_out w) + (ceil_div (length buf) (1000 - p) - 1))%nat /\
    w_out w2 = w_out w ++ evs /\
    Forall2 (is_line cfg env owner tid (begin_color cfg owner lb)) evs contents /\
    length contents = ceil_div (length buf) (1000 - p) /\
    Forall (fun c => (length c <= 1000 - p)%nat) contents /\
    concat contents = buf /\
    m_text lb2 = [].
Proof.
  intros Hone Hstamps Hempty Huniform Hlong.
  set (d := begin_color cfg owner lb).
  pose proof (room_positive cfg env owner tid p Huniform) as Hroom. cbv zeta in Hroom.
  unfold append. rewrite Hstamps, bool_decide_eq_true_2 by exact Hempty. cbn [andb].
  rewrite append_time_prefix, Hempty. cbn [app]. fold d.
  destruct (append_loop_splits cfg env owner tid p d Hone Hstamps Huniform (S (length buf))
              (set_text (set_default_color lb d) (line_prefix cfg env owner tid (w_tick w)))
              (tick w) buf (w_tick w))
    as (lb' & w' & rest & evs & contents & n' & Hrun & Hout & Hlines & Hfull & Hcat & Hr & Ht & Hd);
    try reflexivity.
  { apply begin_color_stable. reflexivity. }
  { intros ->. cbn in Hlong. lia. }
  { lia. }
  rewrite Hrun. cbn [mbind result_bind].
  assert (Hnz : (size rest =? 0) = false).
  { apply N.eqb_neq. unfold size. lia. }
  rewrite Hnz.
  assert (Hcount : ceil_div (length buf) (1000 - p) = S (length contents)).
  { rewrite <- Hcat, length_app, (concat_length_uniform _ _ Hfull).
    apply ceil_div_full_lines. exact Hr. }
  eexists _, _, _, _, (evs ++ [_]), (contents ++ [rest]).
  split; [reflexivity|].
  split.
  { rewrite flush_single_write; [reflexivity|exact Hone|].
    cbn [m_text set_text]. intros E. apply (f_equal length) in E.
    rewrite length_app in E. cbn in E. lia. }
  split.
  { rewrite Hout, length_app, Hcount. cbn [w_out tick].
    rewrite (Forall2_length _ _ _ Hlines). lia. }
  split.
  { rewrite write_line_out, Hout. cbn [w_out tick]. rewrite <- app_assoc. reflexivity. }
  split.
  { apply Forall2_app; [exact Hlines|]. constructor; [|constructor].
    cbn [m_text set_text m_default_color]. rewrite Ht, Hd.
    eexists _, _. rewrite <- app_assoc. reflexivity. }
  split.
  { rewrite length_app, Hcount. cbn. lia. }
  split.
  { apply Forall_app. split.
    - eapply Forall_impl; [exact Hfull|]. cbn. intros c ->. lia.
    - constructor; [lia|constructor]. }
  split.
  { rewrite concat_app. cbn [concat]. rewrite app_nil_r. exact Hcat. }
  reflexivity.
Qed.

(** ** What a flush hands to the operating system *)

Lemma plain_app (s t : text) : plain (s ++ t) = plain s && plain t.
Proof. apply forallb_app. Qed.

Lemma plain_cons (c : ascii) (s : text) : plain (c :: s) = (N_of_ascii c <=? 127) && plain s.
Proof. reflexivity. Qed.

Lemma plain_take (n : nat) (s : text) : plain s = true -> plain (take n s) = true.
Proof.
  revert n. induction s as [|c s IH]; intros [|n] H; try reflexivity.
  rewrite plain_cons in H. apply andb_prop in H as [Hc Hs].
  cbn [take]. rewrite plain_cons, Hc. apply IH, Hs.
Qed.

Lemma plain_replicate (n : nat) (c : ascii) :
  (N_of_ascii c <=? 127) = true -> plain (replicate n c) = true.
Proof. intros H. induction n as [|n IH]; [reflexivity|]. cbn [replicate]. rewrite plain_cons, H. exact IH. Qed.

Lemma digit_char_plain (d : N) : d < 16 -> (N_of_ascii (digit_char d) <=? 127) = true.
Proof.
  intros Hd. unfold digit_char. apply N.leb_le.
  destruct (d <? 10); rewrite N_ascii_embedding; lia.
Qed.

Lemma digits_aux_plain (base : N) (fuel : nat) :
  0 < base <= 16 ->
  forall n acc, plain acc = true -> plain (digits_aux fuel base n acc) = true.
Proof.
  intros Hb. induction fuel as [|fuel IH]; intros n acc Hacc; [exact Hacc|].
  cbn [digits_aux].
  assert (Hacc' : plain (digit_char (n mod base) :: acc) = true).
  { rewrite plain_cons, digit_char_plain, Hacc; [reflexivity|].
    pose proof (N.mod_lt n base ltac:(lia)). lia. }
  destruct (n / base =? 0); [exact Hacc'|]. apply IH, Hacc'.
Qed.

Lemma zero_padded_plain (width : nat) (base n : N) :
  0 < base <= 16 -> plain (zero_padded width base n) = true.
Proof.
  intros Hb. unfold zero_padded, digits. rewrite plain_app.
  rewrite plain_replicate by reflexivity.
  rewrite digits_aux_plain; auto.
Qed.

Lemma format_clock_plain (t : systime) : plain (format_clock t) = true.
Proof.
  unfold format_clock. rewrite !plain_app, !zero_padded_plain by lia. reflexivity.
Qed.

Lemma stamp_plain cfg env tid n : plain (stamp cfg env tid n) = true.
Proof.
  unfold stamp. destruct (target cfg).
  - apply plain_take. unfold format_win32.
    rewrite !plain_app, format_clock_plain, zero_padded_plain by lia. reflexivity.
  - destruct (env_gettimeofday_ok env n); [|reflexivity].
    unfold posix_stamp, format_posix.
    destruct (_ <? _)%nat.
    + rewrite !plain_app, format_clock_plain, zero_padded_plain by lia. reflexivity.
    + rewrite plain_app, plain_take; [reflexivity|].
      rewrite !plain_app, format_clock_plain, zero_padded_plain by lia. reflexivity.
Qed.

Lemma continues_on_refl h w : continues_on h w w.
Proof. exists []. rewrite app_nil_r. split; [reflexivity|constructor]. Qed.

Lemma continues_on_trans h w1 w2 w3 :
  continues_on h w1 w2 -> continues_on h w2 w3 -> continues_on h w1 w3.
Proof.
  intros (e1 & H1 & F1) (e2 & H2 & F2). exists (e1 ++ e2).
  rewrite H2, H1, app_assoc. split; [reflexivity|]. apply Forall_app. auto.
Qed.

Lemma written_app h (e1 e2 : list event) : written h (e1 ++ e2) = written h e1 ++ written h e2.
Proof.
  induction e1 as [|e e1 IH]; [reflexivity|].
  destruct e; cbn [written app]; try exact IH.
  destruct (bool_decide _); [|exact IH]. rewrite IH. apply app_assoc.
Qed.

(** The calls made by [write_to_console]: one write, of the text itself
    when it is plain. *)
Lemma write_to_console_out env owner lb s w :
  exists data ok,
    w_out (write_to_console env owner lb s w) = w_out w ++ [EvWrite (m_con owner) data ok] /\
    (plain s = true -> data = m_text lb).
Proof.
  unfold write_to_console. fold (plain s).
  destruct (plain s) eqn:Hs.
  - eexists _, _. split; [apply write_line_out|reflexivity].
  - destruct (to_wide env s) as [wbuf|].
    + destruct (to_console env wbuf) as [cbuf|];
        eexists _, _; (split; [apply write_line_out|discriminate]).
    + eexists _, _. split; [apply write_line_out|discriminate].
Qed.

Ltac written_bytes :=
  cbn [written app]; rewrite ?bool_decide_eq_true_2 by reflexivity;
  cbn [written app]; rewrite ?app_nil_r, <- ?app_assoc; reflexivity.

(** Every [flush], on every target: the calls are all on the logger's
    handle, and the bytes written are the text and its tail (when the text
    goes through the code-page conversion, provided it is plain). *)
Lemma flush_effect cfg env owner lb w :
  exists evs,
    w_out (flush cfg env owner lb w).2 = w_out w ++ evs /\
    Forall (fun e => event_handle e = m_con owner) evs /\
    (m_convert_cp lb = false \/ plain (m_text lb) = true ->
     written (m_con owner) evs = m_text lb ++ flush_tail cfg lb).
Proof.
  unfold flush, flush_tail.
  destruct (target cfg) eqn:Ht.
  - destruct (m_use_color owner).
    + unfold set_custom_color, set_custom_color_win32. rewrite Ht.
      assert (Hwrite : forall d w0, exists data ok,
                w_out (if m_convert_cp (set_default_color lb d)
                       then write_to_console env owner (set_default_color lb d)
                              (m_text (set_default_color lb d)) w0
                       else write_line env owner (m_text (set_default_color lb d)) w0)
                = w_out w0 ++ [EvWrite (m_con owner) data ok] /\
                (m_convert_cp lb = false \/ plain (m_text lb) = true -> data = m_text lb)).
      { intros d w0. cbn [m_convert_cp m_text set_default_color].
        destruct (m_convert_cp lb).
        - destruct (write_to_console_out env owner (set_default_color lb d) (m_text lb) w0)
            as (data & ok & Hout & Hdata).
          exists data, ok. split; [exact Hout|]. intros [H|H]; [discriminate|auto].
        - eexists _, _. split; [apply write_line_out|reflexivity]. }
      destruct (no_color =? get_color owner).
      * destruct (Hwrite no_color w) as (data & ok & Hout & Hdata).
        cbn [m_default_color set_default_color fst snd]. rewrite N.eqb_refl.
        rewrite write_line_out, Hout.
        eexists. split; [rewrite <- app_assoc; reflexivity|].
        split; [repeat constructor|].
        intros H. rewrite (Hdata H). written_bytes.
      * destruct (GetConsoleScreenBufferInfo (m_con owner) w) as [attr|].
        -- destruct (Hwrite attr (SetConsoleTextAttribute (m_con owner) (get_color owner) (tick w)))
             as (data & ok & Hout & Hdata).
           cbn [m_default_color set_default_color fst snd].
           destruct (attr =? no_color).
           ++ rewrite write_line_out, Hout. cbn [w_out SetConsoleTextAttribute tick].
              eexists. split; [rewrite <- !app_assoc; reflexivity|].
              split; [repeat constructor|].
              intros H. rewrite (Hdata H). written_bytes.
           ++ rewrite write_line_out. cbn [w_out SetConsoleTextAttribute]. rewrite Hout.
              cbn [w_out SetConsoleTextAttribute tick].
              eexists. split; [rewrite <- !app_assoc; reflexivity|].
              split; [repeat constructor|].
              intros H. rewrite (Hdata H). written_bytes.
        -- destruct (Hwrite no_color (tick w)) as (data & ok & Hout & Hdata).
           cbn [m_default_color set_default_color fst snd]. rewrite N.eqb_refl.
           rewrite write_line_out, Hout. cbn [w_out tick].
           eexists. split; [rewrite <- app_assoc; reflexivity|].
           split; [repeat constructor|].
           intros H. rewrite (Hdata H). written_bytes.
    + unfold append_crlf. rewrite Ht. cbn [snd m_text set_text]. rewrite write_line_out.
      eexists. split; [reflexivity|]. split; [repeat constructor|].
      intros _. cbn [written]. rewrite bool_decide_eq_true_2 by reflexivity. apply app_nil_r.
  - unfold append_crlf. rewrite Ht. cbn [snd]. rewrite write_line_out.
    eexists. split; [reflexivity|]. split; [repeat constructor|].
    intros _. cbn [written]. rewrite bool_decide_eq_true_2 by reflexivity. rewrite app_nil_r.
    destruct (negb (bool_decide (m_text lb = [])) && negb (m_default_color lb =? no_color));
      cbn [m_text set_text]; [rewrite <- app_assoc|]; reflexivity.
Qed.

(** ** All calls go to the logger's handle *)

Lemma flush_on_handle cfg env owner lb w :
  continues_on (m_con owner) w (flush cfg env owner lb w).2.
Proof. destruct (flush_effect cfg env owner lb w) as (evs & H & F & _). exists evs. auto. Qed.

Lemma append_time_on_handle cfg env owner tid lb w :
  continues_on (m_con owner) w (append_time cfg env owner tid lb w).2.
Proof.
  rewrite append_time_prefix. exists []. cbn. rewrite app_nil_r.
  split; [reflexivity|constructor].
Qed.

Lemma append_loop_on_handle cfg env owner tid fuel :
  forall lb w buf lb' w' rest,
    append_loop fuel cfg env owner tid lb w buf = Ok (lb', w', rest) ->
    continues_on (m_con owner) w w'.
Proof.
  induction fuel as [|fuel IH]; intros lb w buf lb' w' rest; rewrite append_loop_unfold;
    destruct (_ <=? _).
  - intros [= <- <- <-]. apply continues_on_refl.
  - discriminate.
  - intros [= <- <- <-]. apply continues_on_refl.
  - destruct (negb (NDEBUG cfg) && _); [discriminate|]. cbv zeta.
    set (chunk := N.min _ _).
    pose proof (flush_on_handle cfg env owner
                  (set_text lb (m_text lb ++ take (N.to_nat chunk) buf)) w) as Hf.
    destruct (flush cfg env owner _ w) as [lb1 w1]. cbn [snd] in Hf.
    set (again := negb _ && _).
    pose proof (append_time_on_handle cfg env owner tid lb1 w1) as Ht.
    destruct again.
    + destruct (append_time cfg env owner tid lb1 w1) as [lb2 w2]. cbn [snd] in Ht.
      intros Hrun. apply IH in Hrun.
      eapply continues_on_trans; [exact Hf|]. eapply continues_on_trans; eassumption.
    + intros Hrun. apply IH in Hrun. eapply continues_on_trans; eassumption.
Qed.

Lemma append_on_handle cfg env owner tid lb w buf lb' w' :
  append cfg env owner tid lb w buf = Ok (lb', w') ->
  continues_on (m_con owner) w w'.
Proof.
  unfold append.
  pose proof (append_time_on_handle cfg env owner tid lb w) as Ht.
  destruct (m_prepend_time owner && bool_decide (m_text lb = [])).
  - destruct (append_time cfg env owner tid lb w) as [lb0 w0]. cbn [snd] in Ht.
    destruct (append_loop _ cfg env owner tid lb0 w0 buf) as [[[lb1 w1] rest]| |] eqn:Hrun;
      cbn [mbind result_bind]; try discriminate.
    intros [= <- <-]. apply append_loop_on_handle in Hrun.
    eapply continues_on_trans; eassumption.
  - destruct (append_loop _ cfg env owner tid lb w buf) as [[[lb1 w1] rest]| |] eqn:Hrun;
      cbn [mbind result_bind]; try discriminate.
    intros [= <- <-]. eapply append_loop_on_handle, Hrun.
Qed.

Lemma xsputn_loop_on_handle cfg env owner tid fuel :
  forall bufptr w buf lb' w',
    xsputn_loop fuel cfg env owner tid bufptr w buf = Ok (lb', w') ->
    continues_on (m_con owner) w w'.
Proof.
  induction fuel as [|fuel IH]; intros bufptr w buf lb' w'; destruct buf as [|c buf]; cbn [xsputn_loop].
  - intros [= <- <-]. apply continues_on_refl.
  - discriminate.
  - intros [= <- <-]. apply continues_on_refl.
  - destruct (find (c :: buf) LF) as [nl|]; [|apply append_on_handle].
    assert (Hfirst : forall lb1 w1,
              (if (nl =? 0)%nat then Ok (bufptr, w)
               else append cfg env owner tid bufptr w (take nl (c :: buf))) = Ok (lb1, w1) ->
              continues_on (m_con owner) w w1).
    { intros lb1 w1. destruct (nl =? 0)%nat.
      - intros [= <- <-]. apply continues_on_refl.
      - apply append_on_handle. }
    destruct (if (nl =? 0)%nat then _ else _) as [[lb1 w1]| |]; cbn [mbind result_bind];
      try discriminate.
    specialize (Hfirst lb1 w1 eq_refl).
    pose proof (flush_on_handle cfg env owner lb1 w1) as Hf.
    destruct (flush cfg env owner lb1 w1) as [lb2 w2]. cbn [snd] in Hf.
    intros Hrun. apply IH in Hrun.
    eapply continues_on_trans; [exact Hfirst|]. eapply continues_on_trans; eassumption.
Qed.

Lemma xsputn_on_handle cfg env lg tid w buf lg' w' :
  xsputn cfg env lg tid w buf = Ok (lg', w') ->
  continues_on (m_con lg) w w' /\ m_con lg' = m_con lg.
Proof.
  unfold xsputn.
  destruct (xsputn_loop _ cfg env lg tid _ w buf) as [[lb1 w1]| |] eqn:Hrun;
    cbn [mbind result_bind]; try discriminate.
  intros [= <- <-]. split; [|reflexivity]. eapply xsputn_loop_on_handle, Hrun.
Qed.

(** ** The claims *)

(** C10.  [append] always comes back (the loop never runs out of steps; the
    only other way out is the [assert], in a build with assertions and on a
    buffer that already holds [s_limit] bytes or more), and when it comes
    back the accumulated text, prefix and colour sequence included, is at
    most [s_limit] = 1000 bytes long. *)
Theorem append_keeps_the_cap cfg env owner tid lb w (buf : text) :
  match append cfg env owner tid lb w buf with
  | Ok (lb', _) => size (m_text lb') <= s_limit
  | AssertFailed => NDEBUG cfg = false /\ s_limit <= size (m_text lb)
  | OutOfFuel => False
  end.
Proof.
  unfold append.
  assert (Hstart : forall p : line_buffer * world,
            p = (if m_prepend_time owner && bool_decide (m_text lb = [])
                 then append_time cfg env owner tid lb w else (lb, w)) ->
            s_limit <= size (m_text p.1) -> s_limit <= size (m_text lb)).
  { intros p ->. destruct (m_prepend_time owner); cbn [andb]; [|auto].
    destruct (decide (m_text lb = [])) as [He|Hne].
    - rewrite bool_decide_eq_true_2 by exact He.
      pose proof (restart_short cfg env owner tid true lb w He) as Hs.
      cbv iota in Hs. unfold s_limit. lia.
    - rewrite bool_decide_eq_false_2 by exact Hne. auto. }
  destruct (if m_prepend_time owner && bool_decide (m_text lb = [])
            then append_time cfg env owner tid lb w else (lb, w)) as [lb0 w0].
  specialize (Hstart (lb0, w0) eq_refl). cbn [fst] in Hstart.
  pose proof (append_loop_outcome cfg env owner tid lb0 w0 buf) as Hloop.
  destruct (append_loop (S (length buf)) cfg env owner tid lb0 w0 buf) as [[[lb1 w1] rest]| |];
    cbn [mbind result_bind].
  - destruct (size rest =? 0); [lia|].
    cbn [m_text set_text]. rewrite size_app. lia.
  - destruct Hloop as [Hnd Hge]. auto.
  - exact Hloop.
Qed.

(** C6.  After [flush] the accumulated text is empty, on either target and
    whatever [sys::write_file] reports: the buffer that [flush] leaves is
    the same under any other verdict [ok] on the writes, failures
    included.  The next line therefore starts from an empty text. *)
Theorem flush_always_clears cfg env ok owner lb w :
  m_text (flush cfg env owner lb w).1 = [] /\
  (flush cfg (set_write_ok env ok) owner lb w).1 = (flush cfg env owner lb w).1.
Proof.
  split; [apply flush_text|].
  unfold flush. destruct (target cfg); [|reflexivity].
  destruct (m_use_color owner); [|reflexivity].
  destruct (set_custom_color cfg owner lb w) as [lb' w']. reflexivity.
Qed.

(** C8.  A level is active on either channel exactly when it is at or above
    the threshold.  With the threshold at [warn], a [debug] statement does
    nothing at all and a [warn] statement is carried out in full. *)
Theorem threshold_filtering (cfg : build) (lv : level) :
  (is_clog_active cfg lv = true <-> level_value (EXT_LOG_LEVEL cfg) <= level_value lv) /\
  (is_cerr_active cfg lv = true <-> level_value (EXT_LOG_LEVEL cfg) <= level_value lv) /\
  (EXT_LOG_LEVEL cfg = warn ->
   forall env tid s reg w,
     LDEBUG_ cfg env tid s reg w = Ok (reg, w) /\
     LWARN_ cfg env tid s reg w = cerr_insert cfg env tid s reg w).
Proof.
  unfold is_clog_active, is_cerr_active.
  split; [apply N.leb_le|]. split; [apply N.leb_le|].
  intros Hthr env tid s reg w.
  unfold LDEBUG_, LWARN_, EXT_CLOG_IF, EXT_CERR_IF, is_clog_active, is_cerr_active.
  rewrite Hthr. split; reflexivity.
Qed.

Lemma threshold_filtering_witness :
  EXT_LOG_LEVEL warn_build = warn /\
  (is_clog_active warn_build debug = false) /\
  (exists reg' w',
     LWARN_ warn_build sample_env sample_thread (lit "disk full" ++ [LF])
       (new_logger_init sample_env) sample_world = Ok (reg', w') /\
     w_out w' =
       [EvWrite 2%Z (ESC :: lit "[37;41;1m12:34:56.789 [0000abcd] disk full" ++ ansi_reset ++ [LF])
          true]) /\
  LDEBUG_ warn_build sample_env sample_thread (lit "detail" ++ [LF])
    (new_logger_init sample_env) sample_world = Ok (new_logger_init sample_env, sample_world).
Proof.
  split; [reflexivity|]. split; [reflexivity|].
  destruct (threshold_filtering warn_build warn) as (_ & _ & H).
  specialize (H eq_refl sample_env sample_thread).
  split.
  - destruct (H (lit "disk full" ++ [LF]) (new_logger_init sample_env) sample_world) as [_ ->].
    vm_compute. eexists _, _. split; reflexivity.
  - apply H.
Defined.

Lemma buffer_with_buffer env lg tid lb : buffer env (with_buffer lg tid lb) tid = lb.
Proof. unfold buffer, with_buffer. cbn [m_buffer]. rewrite lookup_insert_eq. reflexivity. Qed.

Lemma flush_tail_empty cfg lb : m_text lb = [] -> flush_tail cfg lb = line_terminator cfg.
Proof.
  intros He. unfold flush_tail, line_terminator. destruct (target cfg); [reflexivity|].
  rewrite bool_decide_eq_true_2 by exact He. reflexivity.
Qed.


(** C9.  A newline put into the stream while the line buffer is empty
    flushes the empty buffer: the bytes written are one line terminator
    and nothing else (on a target where [flush] is a single write, that
    write is the only call), and the buffer is empty afterwards. *)
Theorem empty_flush_writes_terminator cfg env lg tid w :
  m_text (buffer env lg tid) = [] ->
  exists lg' w' evs,
    overflow cfg env lg tid w (Some LF) = Ok (lg', w') /\
    w_out w' = w_out w ++ evs /\
    Forall (fun e => event_handle e = m_con lg) evs /\
    written (m_con lg) evs = line_terminator cfg /\
    (single_write cfg lg = true ->
     exists ok, evs = [EvWrite (m_con lg) (line_terminator cfg) ok]) /\
    m_text (buffer env lg' tid) = [].
Proof.
  intros He. unfold overflow.
  change (Ascii.eqb LF LF) with true. cbv iota.
  destruct (flush_effect cfg env lg (buffer env lg tid) w) as (evs & Hout & Hon & Hbytes).
  pose proof (flush_text cfg env lg (buffer env lg tid) w) as Hclear.
  pose proof (flush_empty cfg env lg (buffer env lg tid) w) as Hsingle.
  destruct (flush cfg env lg (buffer env lg tid) w) as [lb' w'].
  cbn [fst snd] in *.
  exists (with_buffer lg tid lb'), w', evs.
  split; [reflexivity|]. split; [exact Hout|]. split; [exact Hon|].
  split.
  { rewrite Hbytes by (right; rewrite He; reflexivity).
    rewrite He, flush_tail_empty by exact He. reflexivity. }
  split.
  { intros Hs. specialize (Hsingle Hs He). injection Hsingle as _ ->.
    rewrite write_line_out in Hout. apply app_inv_head in Hout. subst evs. eauto. }
  rewrite buffer_with_buffer. exact Hclear.
Qed.

Lemma empty_flush_writes_terminator_witness :
  m_text (buffer sample_env file_logger sample_thread) = [] /\
  exists lg' w' evs,
    overflow posix_build sample_env file_logger sample_thread sample_world (Some LF)
      = Ok (lg', w') /\
    w_out w' = w_out sample_world ++ evs /\
    Forall (fun e => event_handle e = m_con file_logger) evs /\
    written (m_con file_logger) evs = line_terminator posix_build /\
    (single_write posix_build file_logger = true ->
     exists ok, evs = [EvWrite (m_con file_logger) (line_terminator posix_build) ok]) /\
    m_text (buffer sample_env lg' sample_thread) = [].
Proof.
  split; [reflexivity|].
  apply (empty_flush_writes_terminator posix_build sample_env file_logger sample_thread
           sample_world).
  reflexivity.
Defined.

(** ** The stream functions always come back *)

(** [append] comes back unless its [assert] fails. *)
Lemma append_not_out_of_fuel cfg env owner tid lb w (buf : text) :
  append cfg env owner tid lb w buf <> OutOfFuel /\
  (NDEBUG cfg = true -> exists r, append cfg env owner tid lb w buf = Ok r).
Proof.
  unfold append.
  destruct (if m_prepend_time owner && bool_decide (m_text lb = [])
            then append_time cfg env owner tid lb w else (lb, w)) as [lb0 w0].
  pose proof (append_loop_outcome cfg env owner tid lb0 w0 buf) as Hloop.
  destruct (append_loop (S (length buf)) cfg env owner tid lb0 w0 buf) as [[[lb1 w1] rest]| |];
    cbn [mbind result_bind].
  - split; [discriminate|eauto].
  - destruct Hloop as [Hnd _]. split; [discriminate|]. congruence.
  - contradiction.
Qed.

Lemma find_lt (buf : text) (c : ascii) (nl : nat) :
  find buf c = Some nl -> (nl < length buf)%nat.
Proof.
  revert nl. induction buf as [|x buf IH]; intros nl; cbn [find length]; [discriminate|].
  destruct (Ascii.eqb x c).
  - intros [= <-]. lia.
  - destruct (find buf c) as [n|]; [|discriminate].
    intros [= <-]. specialize (IH n eq_refl). lia.
Qed.

Lemma xsputn_loop_not_out_of_fuel cfg env owner tid fuel :
  forall bufptr w (buf : text),
    (length buf <= fuel)%nat ->
    xsputn_loop fuel cfg env owner tid bufptr w buf <> OutOfFuel /\
    (NDEBUG cfg = true -> exists r, xsputn_loop fuel cfg env owner tid bufptr w buf = Ok r).
Proof.
  induction fuel as [|fuel IH]; intros bufptr w buf Hfuel; destruct buf as [|c buf];
    cbn [xsputn_loop]; try (split; [discriminate|eauto]).
  { cbn in Hfuel. lia. }
  destruct (find (c :: buf) LF) as [nl|] eqn:Hnl; [|apply append_not_out_of_fuel].
  apply find_lt in Hnl.
  pose proof (append_not_out_of_fuel cfg env owner tid bufptr w (take nl (c :: buf)))
    as [Hfuel1 Hok1].
  assert (Hrest : forall lb1 w1,
            let '(lb2, w2) := flush cfg env owner lb1 w1 in
            xsputn_loop fuel cfg env owner tid lb2 w2 (drop (S nl) (c :: buf)) <> OutOfFuel /\
            (NDEBUG cfg = true ->
             exists r, xsputn_loop fuel cfg env owner tid lb2 w2 (drop (S nl) (c :: buf)) = Ok r)).
  { intros lb1 w1. destruct (flush cfg env owner lb1 w1) as [lb2 w2].
    apply IH. rewrite length_drop. cbn [length] in *. lia. }
  destruct (nl =? 0)%nat; cbn [mbind result_bind].
  - specialize (Hrest bufptr w).
    destruct (flush cfg env owner bufptr w) as [lb2 w2]. exact Hrest.
  - destruct (append cfg env owner tid bufptr w (take nl (c :: buf))) as [[lb1 w1]| |];
      cbn [mbind result_bind].
    + specialize (Hrest lb1 w1).
      destruct (flush cfg env owner lb1 w1) as [lb2 w2]. exact Hrest.
    + split; [discriminate|]. intros Hnd. destruct (Hok1 Hnd) as [r Hr]. discriminate.
    + contradiction.
Qed.

Lemma xsputn_not_out_of_fuel cfg env lg tid w (buf : text) :
  xsputn cfg env lg tid w buf <> OutOfFuel /\
  (NDEBUG cfg = true -> exists r, xsputn cfg env lg tid w buf = Ok r).
Proof.
  unfold xsputn.
  destruct (xsputn_loop_not_out_of_fuel cfg env lg tid (length buf) (buffer env lg tid) w buf)
    as [Hfuel Hok]; [lia|].
  destruct (xsputn_loop _ cfg env lg tid _ w buf) as [[lb1 w1]| |]; cbn [mbind result_bind].
  - split; [discriminate|eauto].
  - split; [discriminate|]. intros Hnd. destruct (Hok Hnd) as [r Hr]. discriminate.
  - contradiction.
Qed.

(** C4.  When the file cannot be opened, [redirect (filename)] returns
    [false] and the logger it leaves is the logger it found: same handle,
    same colour flag, same ownership flag, same buffers; nothing was
    written or closed.  Whatever is put into the stream afterwards is
    carried out (short of the [assert] of [append]) and all it writes goes
    to the handle that was configured before the call. *)
Theorem failed_redirect_changes_nothing cfg env lg tid w (filename : string) :
  env_create_file env (w_tick w) filename = None ->
  exists lg' w',
    redirect cfg env lg tid w filename = (lg', w', false) /\
    lg' = lg /\
    m_con lg' = m_con lg /\
    m_use_color lg' = m_use_color lg /\
    m_opened_file lg' = m_opened_file lg /\
    w_out w' = w_out w /\
    forall tid' (buf : text),
      xsputn cfg env lg' tid' w' buf <> OutOfFuel /\
      (NDEBUG cfg = true -> exists r, xsputn cfg env lg' tid' w' buf = Ok r) /\
      forall lg2 w2,
        xsputn cfg env lg' tid' w' buf = Ok (lg2, w2) ->
        continues_on (m_con lg) w w2 /\ m_con lg2 = m_con lg.
Proof.
  intros Hopen. exists lg, (tick w). unfold redirect. rewrite Hopen.
  do 6 (split; [reflexivity|]).
  intros tid' buf.
  split; [apply xsputn_not_out_of_fuel|]. split; [apply xsputn_not_out_of_fuel|].
  intros lg2 w2 Hrun. apply xsputn_on_handle in Hrun as [(evs & Hout & Hon) Hcon].
  split; [|exact Hcon]. exists evs. auto.
Qed.

Lemma failed_redirect_changes_nothing_witness :
  env_create_file sample_env (w_tick sample_world) "/no/such/dir/log" = None /\
  redirect posix_build sample_env file_logger sample_thread sample_world "/no/such/dir/log"
    = (file_logger, tick sample_world, false) /\
  exists lg2 w2 ok,
    xsputn posix_build sample_env file_logger sample_thread (tick sample_world)
      (lit "x" ++ [LF]) = Ok (lg2, w2) /\
    w_out w2 = [EvWrite (m_con file_logger) (lit "12:34:56.789 [0000abcd] x" ++ [LF]) ok] /\
    continues_on (m_con file_logger) sample_world w2.
Proof.
  split; [reflexivity|].
  destruct (failed_redirect_changes_nothing posix_build sample_env file_logger sample_thread
              sample_world "/no/such/dir/log" eq_refl)
    as (lg' & w' & Hr & Hlg & _ & _ & _ & _ & Hlater).
  split; [reflexivity|].
  injection Hr as <- <-.
  eexists _, _, _. split; [vm_compute; reflexivity|]. split; [reflexivity|].
  eapply (Hlater sample_thread (lit "x" ++ [LF])). vm_compute. reflexivity.
Defined.

(** C3, as amended.  On the ANSI target every colour other than the
    sentinel is rendered: the sequence always carries a foreground code
    30..37 and a background code 40..47 (black is 30 and 40, like any other
    colour), then [;1] when a bright bit is set; [m_default_color] records
    the colour, so the line will be followed by the reset sequence.  Only
    the sentinel itself gives no sequence. *)
Theorem every_color_is_rendered (owner : logger) (lb : line_buffer) :
  get_color owner <> no_color ->
  set_custom_color_posix owner lb =
    set_text (set_default_color lb (get_color owner))
             (m_text lb ++ ansi_sequence (get_color owner)) /\
  (7 < length (ansi_sequence (get_color owner)))%nat.
Proof.
  intros Hc. split; [apply set_custom_color_posix_sequence, Hc|].
  unfold ansi_sequence. rewrite !length_app. cbn [length]. lia.
Qed.

Lemma every_color_is_rendered_witness :
  get_color tty_logger <> no_color /\
  m_text (set_custom_color_posix tty_logger (new_line_buffer sample_env))
    = ESC :: lit "[37;40;1m".
Proof.
  assert (H : get_color tty_logger <> no_color) by (vm_compute; discriminate).
  split; [exact H|].
  destruct (every_color_is_rendered tty_logger (new_line_buffer sample_env) H) as [-> _].
  reflexivity.
Defined.

(** C3, the claim as written fails for black on black (colour value 0, no
    bright bit): it is not the sentinel, and it is rendered as
    [ESC [ 3 0 ; 4 0 m], unlike the sentinel, which appends nothing. *)
Lemma black_on_black_is_rendered :
  let black := set_color tty_logger (N.lor fg_black bg_black) in
  let unset := set_color tty_logger no_color in
  let lb := new_line_buffer sample_env in
  get_color black <> no_color /\
  is_bright (get_color black) = false /\
  m_text (set_custom_color_posix black lb) = ESC :: lit "[30;40m" /\
  m_default_color (set_custom_color_posix black lb) = 0 /\
  m_text (set_custom_color_posix unset lb) = [] /\
  m_default_color (set_custom_color_posix unset lb) = no_color /\
  set_custom_color_posix black lb <> set_custom_color_posix unset lb.
Proof.
  cbv zeta. repeat split; try reflexivity; vm_compute; discriminate.
Qed.

(** ** Lines put into the stream *)

Lemma ansi_digit_plain (bits : N) : (N_of_ascii (ansi_digit bits) <=? 127) = true.
Proof.
  destruct bits as [|[[[p|p|]|[p|p|]|]|[[p|p|]|[p|p|]|]|]]; reflexivity.
Qed.

Lemma line_prefix_plain cfg env owner tid n : plain (line_prefix cfg env owner tid n) = true.
Proof.
  unfold line_prefix. rewrite plain_app, stamp_plain, andb_true_r.
  unfold color_prefix. destruct (target cfg); [reflexivity|].
  destruct (m_use_color owner && negb (no_color =? get_color owner)); [|reflexivity].
  unfold ansi_sequence. rewrite plain_app. cbn [app].
  rewrite !plain_cons, !ansi_digit_plain.
  destruct (is_bright (get_color owner)); reflexivity.
Qed.

(** [xsputn] of bytes without a newline is [append]. *)
Lemma xsputn_loop_no_newline cfg env owner tid fuel bufptr w (buf : text) :
  find buf LF = None ->
  buf <> [] ->
  xsputn_loop (S fuel) cfg env owner tid bufptr w buf = append cfg env owner tid bufptr w buf.
Proof.
  intros Hnl Hne. destruct buf as [|c buf]; [congruence|].
  cbn [xsputn_loop]. rewrite Hnl. reflexivity.
Qed.

(** [xsputn] of bytes that end in their only newline is [append] of what
    precedes it, then [flush]. *)
Lemma xsputn_loop_one_line cfg env owner tid fuel bufptr w (buf : text) (nl : nat) :
  find buf LF = Some (S nl) ->
  drop (S (S nl)) buf = [] ->
  xsputn_loop (S (S fuel)) cfg env owner tid bufptr w buf =
    '(lb, w1) ← append cfg env owner tid bufptr w (take (S nl) buf);
    Ok (flush cfg env owner lb w1).
Proof.
  intros Hnl Hend. destruct buf as [|c buf]; [discriminate|].
  cbn [xsputn_loop]. rewrite Hnl. cbn [Nat.eqb].
  destruct (append cfg env owner tid bufptr w (take (S nl) (c :: buf))) as [[lb w1]| |];
    cbn [mbind result_bind]; try reflexivity.
  destruct (flush cfg env owner lb w1) as [lb2 w2]. rewrite Hend. reflexivity.
Qed.



(** ** Changing the colour while a line is pending *)

(** The console-attribute [flush] installs the custom colour before
    anything else. *)
Lemma win32_flush_installs_color cfg env owner lb w :
  target cfg = Win32 ->
  m_use_color owner = true ->
  get_color owner <> no_color ->
  is_Some (w_console w !! m_con owner) ->
  exists rest,
    w_out (flush cfg env owner lb w).2 =
      w_out w ++ EvSetAttr (m_con owner) (get_color owner) :: rest.
Proof.
  intros Ht Hc Hne [attr Hattr].
  unfold flush, set_custom_color, set_custom_color_win32, GetConsoleScreenBufferInfo.
  rewrite Ht, Hc.
  destruct (N.eqb_spec no_color (get_color owner)) as [E|_]; [congruence|].
  cbn [w_console tick]. rewrite Hattr. cbn [snd].
  set (w1 := SetConsoleTextAttribute (m_con owner) (get_color owner) (tick w)).
  assert (H1 : w_out w1 = w_out w ++ [EvSetAttr (m_con owner) (get_color owner)]) by reflexivity.
  assert (Hwrite : exists data ok,
            w_out (if m_convert_cp (set_default_color lb attr)
                   then write_to_console env owner (set_default_color lb attr)
                          (m_text (set_default_color lb attr)) w1
                   else write_line env owner (m_text (set_default_color lb attr)) w1)
            = w_out w1 ++ [EvWrite (m_con owner) data ok]).
  { destruct (m_convert_cp (set_default_color lb attr)).
    - destruct (write_to_console_out env owner (set_default_color lb attr)
                  (m_text (set_default_color lb attr)) w1) as (data & ok & Hout & _).
      eauto.
    - eexists _, _. apply write_line_out. }
  destruct Hwrite as (data & ok & Hout).
  rewrite write_line_out.
  destruct (m_default_color (set_default_color lb attr) =? no_color).
  - rewrite Hout, H1. eexists. rewrite <- !app_assoc. reflexivity.
  - cbn [w_out SetConsoleTextAttribute]. rewrite Hout, H1.
    eexists. rewrite <- !app_assoc. reflexivity.
Qed.

(** The coloured console-attribute [flush] with nothing to colour (the
    custom colour is the sentinel, or the handle is not a console) sets no
    attribute: its calls are the write of the text and the write of the
    line terminator. *)
Lemma win32_flush_sets_no_attribute cfg env owner lb w :
  target cfg = Win32 ->
  m_use_color owner = true ->
  get_color owner = no_color \/ w_console w !! m_con owner = None ->
  exists data ok1 ok2,
    w_out (flush cfg env owner lb w).2 =
      w_out w ++ [EvWrite (m_con owner) data ok1; EvWrite (m_con owner) [CR; LF] ok2].
Proof.
  intros Ht Hc Hnone.
  unfold flush, set_custom_color, set_custom_color_win32, GetConsoleScreenBufferInfo.
  rewrite Ht, Hc.
  assert (Hwrite : forall w1, exists data ok,
            w_out (if m_convert_cp (set_default_color lb no_color)
                   then write_to_console env owner (set_default_color lb no_color)
                          (m_text (set_default_color lb no_color)) w1
                   else write_line env owner (m_text (set_default_color lb no_color)) w1)
            = w_out w1 ++ [EvWrite (m_con owner) data ok]).
  { intros w1. destruct (m_convert_cp (set_default_color lb no_color)).
    - destruct (write_to_console_out env owner (set_default_color lb no_color)
                  (m_text (set_default_color lb no_color)) w1) as (data & ok & Hout & _).
      eauto.
    - eexists _, _. apply write_line_out. }
  assert (Hcase : (no_color =? get_color owner) = true \/
                  (no_color =? get_color owner) = false /\ w_console w !! m_con owner = None).
  { destruct (N.eqb_spec no_color (get_color owner)) as [E|E]; [auto|].
    right. split; [reflexivity|]. destruct Hnone; congruence. }
  destruct Hcase as [->|[-> Hlook]].
  - destruct (Hwrite w) as (data & ok & Hout).
    cbn [snd m_default_color set_default_color]. rewrite N.eqb_refl.
    rewrite write_line_out, Hout. eexists _, _, _. rewrite <- app_assoc. reflexivity.
  - cbn [w_console tick]. rewrite Hlook.
    destruct (Hwrite (tick w)) as (data & ok & Hout).
    cbn [snd m_default_color set_default_color]. rewrite N.eqb_refl.
    rewrite write_line_out, Hout. cbn [w_out tick].
    eexists _, _, _. rewrite <- app_assoc. reflexivity.
Qed.

(** C5, as amended.  For every logger, every colour and every buffer:
    [set_color] between an append and the flush leaves the buffers, and so
    the bytes accumulated, as they are.

    On the ANSI target the pending line is flushed exactly as it would
    have been without the call (its colour sequence was made when the line
    began).  The new colour takes effect on the next line that begins: the
    line starts with the sequence of the new colour if the logger has
    colour enabled and the colour is not the sentinel, and with the time
    stamp alone otherwise.

    On the console-attribute target the colour is read at the flush.  With
    colour enabled, a colour that is not the sentinel and a console
    handle, that very flush installs the new colour as its first call;
    with colour enabled and the sentinel as colour, or a handle that is not
    a console, that flush sets no attribute; with colour disabled that
    flush is exactly what it would have been without the call.

    [c] is the colour as a [color_t]. *)
Theorem set_color_before_flush cfgP cfgW env lg tid lb w (color : N) :
  target cfgP = Posix ->
  target cfgW = Win32 ->
  let c := color mod color_t_modulus in
  m_buffer (set_color lg color) = m_buffer lg /\
  flush cfgP env (set_color lg color) lb w = flush cfgP env lg lb w /\
  (forall lb' w', m_text lb' = [] ->
     m_text (append_time cfgP env (set_color lg color) tid lb' w').1 =
       (if m_use_color lg && negb (no_color =? c) then ansi_sequence c else [])
         ++ stamp cfgP env tid (w_tick w')) /\
  (m_use_color lg = true -> c <> no_color -> is_Some (w_console w !! m_con lg) ->
   exists rest,
     w_out (flush cfgW env (set_color lg color) lb w).2 =
       w_out w ++ EvSetAttr (m_con lg) c :: rest) /\
  (m_use_color lg = true -> c = no_color \/ w_console w !! m_con lg = None ->
   exists data ok1 ok2,
     w_out (flush cfgW env (set_color lg color) lb w).2 =
       w_out w ++ [EvWrite (m_con lg) data ok1; EvWrite (m_con lg) [CR; LF] ok2]) /\
  (m_use_color lg = false ->
   flush cfgW env (set_color lg color) lb w = flush cfgW env lg lb w).
Proof.
  intros HP HW c.
  assert (Hget : get_color (set_color lg color) = c) by reflexivity.
  split; [reflexivity|].
  split.
  { unfold flush. rewrite HP. reflexivity. }
  split.
  { intros lb' w' He. rewrite append_time_prefix. cbn [fst m_text set_text].
    rewrite He. cbn [app]. unfold line_prefix, color_prefix. rewrite HP, Hget.
    reflexivity. }
  split.
  { intros Hc Hne Hcon.
    destruct (win32_flush_installs_color cfgW env (set_color lg color) lb w) as [rest Hout];
      try assumption.
    exists rest. exact Hout. }
  split.
  { intros Hc Hnone.
    exact (win32_flush_sets_no_attribute cfgW env (set_color lg color) lb w HW Hc Hnone). }
  intros Hc. unfold flush. rewrite HW.
  change (m_use_color (set_color lg color)) with (m_use_color lg). rewrite Hc. reflexivity.
Qed.

Lemma set_color_before_flush_witness :
  let lb := set_text (new_line_buffer sample_env) (lit "12:34:56.789 [0000abcd] ab") in
  (* a terminal *)
  flush posix_build sample_env (set_color tty_logger fg_red) lb sample_world
    = flush posix_build sample_env tty_logger lb sample_world /\
  m_text (append_time posix_build sample_env (set_color tty_logger fg_red) sample_thread
            (new_line_buffer sample_env) sample_world).1
    = ESC :: lit "[31;40m12:34:56.789 [0000abcd] " /\
  (exists rest,
     w_out (flush win32_build sample_env (set_color tty_logger fg_red) lb sample_world).2 =
       w_out sample_world ++ EvSetAttr (m_con tty_logger) fg_red :: rest) /\
  (* a file *)
  m_text (append_time posix_build sample_env (set_color file_logger fg_red) sample_thread
            (new_line_buffer sample_env) sample_world).1
    = lit "12:34:56.789 [0000abcd] " /\
  flush win32_build sample_env (set_color file_logger fg_red) lb sample_world
    = flush win32_build sample_env file_logger lb sample_world.
Proof.
  intros lb.
  destruct (set_color_before_flush posix_build win32_build sample_env tty_logger sample_thread
              lb sample_world fg_red eq_refl eq_refl) as (_ & Hflush & Hnext & Hset & _ & _).
  destruct (set_color_before_flush posix_build win32_build sample_env file_logger sample_thread
              lb sample_world fg_red eq_refl eq_refl) as (_ & _ & Hnext' & _ & _ & Hoff).
  split; [exact Hflush|].
  split; [rewrite Hnext by reflexivity; reflexivity|].
  split.
  { apply Hset; [reflexivity|discriminate|eexists; reflexivity]. }
  split; [rewrite Hnext' by reflexivity; reflexivity|].
  apply Hoff. reflexivity.
Defined.

(** C5, the claim as written fails on the ANSI target.  ["ab"] is put into
    a stream coloured bright white; the colour is then set to red and the
    line is flushed: the line that is written still begins with the
    bright-white sequence, not with the red one, and it is byte for byte
    the line that would have been written without the call. *)
Lemma set_color_does_not_recolor_pending_line :
  exists lg1 w1 line,
    xsputn posix_build sample_env tty_logger sample_thread sample_world (lit "ab")
      = Ok (lg1, w1) /\
    (exists lg2,
       overflow posix_build sample_env (set_color lg1 fg_red) sample_thread w1 (Some LF)
         = Ok (lg2, emit (EvWrite 2%Z line true) w1)) /\
    (exists lg2,
       overflow posix_build sample_env lg1 sample_thread w1 (Some LF)
         = Ok (lg2, emit (EvWrite 2%Z line true) w1)) /\
    line = ansi_sequence EXT_LOG_COLOR ++ lit "12:34:56.789 [0000abcd] ab" ++ ansi_reset ++ [LF] /\
    take (length (ansi_sequence fg_red)) line <> ansi_sequence fg_red.
Proof.
  eexists _, _, _.
  split; [vm_compute; reflexivity|].
  split; [eexists; vm_compute; reflexivity|].
  split; [eexists; vm_compute; reflexivity|].
  split; [vm_compute; reflexivity|].
  vm_compute. discriminate.
Qed.

(** ** The length of a time stamp *)

Lemma digits_aux_length (base : N) (fuel : nat) :
  1 < base ->
  forall (k : nat) n acc,
    (1 <= k)%nat -> n < base ^ N.of_nat k ->
    (length (digits_aux fuel base n acc) <= k + length acc)%nat.
Proof.
  intros Hb. induction fuel as [|fuel IH]; intros k n acc Hk Hn; cbn [digits_aux]; [lia|].
  destruct (N.eqb_spec (n / base) 0) as [Hz|Hnz]; [cbn [length]; lia|].
  destruct k as [|[|k]]; [lia| |].
  - exfalso. apply Hnz. apply N.div_small. change (N.of_nat 1) with 1 in Hn.
    rewrite N.pow_1_r in Hn. exact Hn.
  - etransitivity; [apply (IH (S k))|cbn [length]; lia]; [lia|].
    apply N.Div0.div_lt_upper_bound.
    replace (N.of_nat (S (S k))) with (N.succ (N.of_nat (S k))) in Hn by lia.
    rewrite N.pow_succ_r' in Hn. exact Hn.
Qed.

Lemma zero_padded_length (width : nat) (base n : N) :
  1 < base -> (1 <= width)%nat -> n < base ^ N.of_nat width ->
  length (zero_padded width base n) = width.
Proof.
  intros Hb Hw Hn. unfold zero_padded, digits.
  pose proof (digits_aux_length base (S (N.size_nat n)) Hb width n [] Hw Hn) as Hlen.
  cbn [length] in Hlen. rewrite length_app, length_replicate. lia.
Qed.

(** With clock readings in their ranges the POSIX stamp has 24 bytes:
    [HH:MM:SS.mmm [xxxxxxxx] ]. *)
Lemma posix_stamp_24 (t : systime) (tid : thread_id) :
  t_hour t < 100 -> t_min t < 100 -> t_sec t < 100 -> t_msec t < 1000 ->
  length (posix_stamp (format_posix t tid)) = 24%nat.
Proof.
  intros Hh Hm Hs Hms.
  assert (Hlen : length (format_posix t tid) = 24%nat).
  { unfold format_posix, format_clock. rewrite !length_app.
    rewrite !zero_padded_length; try lia; try assumption.
    - reflexivity.
    - apply N.mod_lt. discriminate. }
  unfold posix_stamp. rewrite Hlen. cbn. exact Hlen.
Qed.

(** So, while the clock works, all the prefixes of a logger have one
    length: 24 bytes and the colour sequence, if there is one. *)
Lemma posix_prefix_uniform cfg env owner tid :
  target cfg = Posix ->
  (forall n, env_gettimeofday_ok env n = true) ->
  (forall n, let t := env_localtime env n in
             t_hour t < 100 /\ t_min t < 100 /\ t_sec t < 100 /\ t_msec t < 1000) ->
  forall n, length (line_prefix cfg env owner tid n) = (length (color_prefix cfg owner) + 24)%nat.
Proof.
  intros Ht Hok Hrange n. unfold line_prefix, stamp. rewrite length_app, Ht, Hok.
  destruct (Hrange n) as (Hh & Hm & Hs & Hms).
  rewrite posix_stamp_24 by assumption. reflexivity.
Qed.

(** ** The first testable property on the sample machine *)

(** On the sample machine every prefix of the uncoloured logger is the
    24-byte time stamp. *)
Lemma sample_prefix_length (n : nat) :
  length (line_prefix posix_build sample_env file_logger sample_thread n) = 24%nat.
Proof. reflexivity. Qed.

Lemma long_append_splits_at_cap_with_prefix_witness :
  let buf := replicate 1953 "x"%char in
  (1000 < length buf)%nat /\
  exists lb1 w1 lb2 w2 evs contents,
    append posix_build sample_env file_logger sample_thread (new_line_buffer sample_env)
      sample_world buf = Ok (lb1, w1) /\
    flush posix_build sample_env file_logger lb1 w1 = (lb2, w2) /\
    length (w_out w1) = (length (w_out sample_world) + (ceil_div (length buf) (1000 - 24) - 1))%nat /\
    w_out w2 = w_out sample_world ++ evs /\
    Forall2 (is_line posix_build sample_env file_logger sample_thread
               (begin_color posix_build file_logger (new_line_buffer sample_env))) evs contents /\
    length contents = ceil_div (length buf) (1000 - 24) /\
    Forall (fun c => (length c <= 1000 - 24)%nat) contents /\
    concat contents = buf /\
    m_text lb2 = [].
Proof.
  intros buf.
  assert (Hlong : (1000 < length buf)%nat) by (vm_compute; lia).
  split; [exact Hlong|].
  exact (long_append_splits_at_cap_with_prefix posix_build sample_env file_logger sample_thread
           (new_line_buffer sample_env) sample_world buf 24 eq_refl eq_refl eq_refl
           sample_prefix_length Hlong).
Defined.

(** C1, the claim as written fails.  40993 bytes are appended to the empty
    buffer of the uncoloured logger: [ceil (40993 / 1000)] is 41, but
    [append] itself flushes 42 lines and the flush that ends the line makes
    them 43, because each line holds 976 bytes of the input behind its
    24-byte time stamp.  So neither reading of the property (with or
    without the final flush) holds. *)
Lemma long_append_is_not_split_by_thousands :
  let buf := replicate (N.to_nat 40993) "x"%char in
  ~ split_as_claimed true posix_build sample_env file_logger sample_thread
      (new_line_buffer sample_env) sample_world buf /\
  ~ split_as_claimed false posix_build sample_env file_logger sample_thread
      (new_line_buffer sample_env) sample_world buf.
Proof.
  intros buf.
  assert (Hflushes :
    match append posix_build sample_env file_logger sample_thread
            (new_line_buffer sample_env) sample_world buf with
    | Ok (lb1, w1) =>
        length (w_out w1) = 42%nat /\
        length (w_out (flush posix_build sample_env file_logger lb1 w1).2) = 43%nat
    | _ => False
    end) by (vm_compute; split; reflexivity).
  assert (Hclaimed : ceil_div (length buf) 1000 = 41%nat) by (vm_compute; reflexivity).
  split; intros (lb1 & w1 & evs & contents & Happ & Hout & Hlines & Hcount & _);
    rewrite Happ in Hflushes; destruct Hflushes as [H42 H43];
    apply Forall2_length in Hlines; rewrite Hcount, Hclaimed in Hlines;
    cbv iota in Hout.
  - rewrite Hout in H43. change (w_out sample_world ++ evs) with evs in H43.
    rewrite Hlines in H43. discriminate H43.
  - rewrite Hout in H42. change (w_out sample_world ++ evs) with evs in H42.
    rewrite Hlines in H42. discriminate H42.
Qed.

(** * Further properties of the code *)

(** ** One character at a time *)

(** X1.  Putting one character into the stream through [overflow] is the
    same as putting the one-character string through [xsputn], for every
    character, the newline included. *)
Theorem overflow_is_xsputn_of_one_char cfg env lg tid w (c : ascii) :
  overflow cfg env lg tid w (Some c) = xsputn cfg env lg tid w [c].
Proof.
  unfold overflow, xsputn. cbn [length xsputn_loop find].
  destruct (Ascii.eqb c LF).
  - cbn [Nat.eqb mbind result_bind drop].
    destruct (flush cfg env lg (buffer env lg tid) w) as [lb w1]. reflexivity.
  - cbn [fmap option_fmap option_map]. reflexivity.
Qed.

(** ** What the stream functions leave alone *)

Lemma lookup_with_buffer_ne lg tid tid' lb :
  tid' <> tid -> m_buffer (with_buffer lg tid lb) !! tid' = m_buffer lg !! tid'.
Proof. intros Hne. unfold with_buffer. cbn [m_buffer]. apply lookup_insert_ne. congruence. Qed.

(** X2.  [xsputn] comes back (unless the [assert] of [append] fails), and
    then the settings of the logger (handle, colour, flags) are what they
    were and the line buffer of every other thread is untouched. *)
Theorem xsputn_touches_only_the_callers_buffer cfg env lg tid w (buf : text) :
  match xsputn cfg env lg tid w buf with
  | Ok (lg', _) =>
      same_settings lg lg' /\
      forall tid', tid' <> tid -> m_buffer lg' !! tid' = m_buffer lg !! tid'
  | AssertFailed => NDEBUG cfg = false
  | OutOfFuel => False
  end.
Proof.
  destruct (xsputn_not_out_of_fuel cfg env lg tid w buf) as [Hfuel Hok].
  unfold xsputn in *.
  destruct (xsputn_loop _ cfg env lg tid _ w buf) as [[lb1 w1]| |]; cbn [mbind result_bind] in *.
  - split; [repeat split|]. intros tid' Hne. apply lookup_with_buffer_ne, Hne.
  - destruct (NDEBUG cfg); [|reflexivity]. destruct (Hok eq_refl) as [r Hr]. discriminate.
  - congruence.
Qed.

Lemma xsputn_touches_only_the_callers_buffer_witness :
  exists lg' w',
    xsputn posix_build sample_env file_logger sample_thread sample_world (lit "a") = Ok (lg', w') /\
    same_settings file_logger lg' /\
    m_buffer lg' !! (1 : thread_id) = m_buffer file_logger !! (1 : thread_id).
Proof.
  pose proof (xsputn_touches_only_the_callers_buffer posix_build sample_env file_logger
                sample_thread sample_world (lit "a")) as H.
  destruct (xsputn posix_build sample_env file_logger sample_thread sample_world (lit "a"))
    as [[lg' w']| |] eqn:E.
  - destruct H as [Hs Hother]. exists lg', w'.
    split; [reflexivity|]. split; [exact Hs|]. apply Hother. discriminate.
  - vm_compute in E. discriminate E.
  - contradiction.
Defined.

(** ** Several lines in one call *)

Lemma find_app_newline (l rest : text) (c : ascii) :
  find l c = None -> find (l ++ c :: rest) c = Some (length l).
Proof.
  induction l as [|x l IH]; cbn [find app length].
  - intros _. rewrite Ascii.eqb_refl. reflexivity.
  - destruct (Ascii.eqb x c); [discriminate|].
    destruct (find l c); [discriminate|]. intros _. rewrite IH by reflexivity. reflexivity.
Qed.

Lemma join_lines_cons (l : text) (lines : list text) :
  join_lines (l :: lines) = l ++ LF :: join_lines lines.
Proof. unfold join_lines. cbn [map concat]. rewrite <- app_assoc. reflexivity. Qed.

(** The loop of [xsputn] on whole lines, where [flush] is a single write:
    one event for each line. *)
Lemma xsputn_loop_lines cfg env owner tid (d : N) :
  single_write cfg owner = true ->
  m_prepend_time owner = true ->
  forall (lines : list text) fuel lb w,
    m_text lb = [] ->
    begin_color cfg owner lb = d ->
    Forall (fun l => find l LF = None /\ size l <= 958) lines ->
    (length (join_lines lines) <= fuel)%nat ->
    exists lb' w' evs,
      xsputn_loop fuel cfg env owner tid lb w (join_lines lines) = Ok (lb', w') /\
      w_out w' = w_out w ++ evs /\
      Forall2 (flushed_as cfg env owner tid d) evs lines /\
      m_text lb' = [].
Proof.
  intros Hone Hstamps lines.
  induction lines as [|l lines IH]; intros fuel lb w Hempty Hd Hlines Hfuel.
  { exists lb, w, []. destruct fuel; cbn; rewrite app_nil_r; repeat split; auto; constructor. }
  apply Forall_cons in Hlines as [[Hnl Hshort] Hlines].
  rewrite join_lines_cons in *.
  destruct fuel as [|fuel]; [rewrite length_app in Hfuel; cbn in Hfuel; lia|].
  assert (Hstep : forall lb1 w1,
            m_text lb1 = [] -> begin_color cfg owner lb1 = d ->
            exists lb' w' evs,
              xsputn_loop fuel cfg env owner tid lb1 w1 (join_lines lines) = Ok (lb', w') /\
              w_out w' = w_out w1 ++ evs /\
              Forall2 (flushed_as cfg env owner tid d) evs lines /\
              m_text lb' = []).
  { intros lb1 w1 H1 H2. apply IH; auto.
    rewrite length_app in Hfuel. cbn [length] in Hfuel. lia. }
  destruct l as [|c l].
  - (* an empty line: the empty buffer is flushed *)
    cbn [app xsputn_loop find]. rewrite Ascii.eqb_refl. cbn [Nat.eqb mbind result_bind drop].
    rewrite flush_empty by assumption.
    destruct (Hstep lb (write_line env owner (line_terminator cfg) w) Hempty Hd)
      as (lb' & w' & evs & Hrun & Hout & Hev & Hclear).
    exists lb', w', (EvWrite (m_con owner) (line_terminator cfg)
                       (env_write_ok env (w_tick w) (m_con owner) (line_terminator cfg)) :: evs).
    split; [exact Hrun|]. split.
    { rewrite Hout, write_line_out, <- app_assoc. reflexivity. }
    split; [|exact Hclear]. constructor; [|exact Hev]. cbn. eauto.
  - (* a line with content *)
    set (line := c :: l) in *.
    assert (Hne : line <> []) by discriminate.
    assert (Hfind : find (line ++ LF :: join_lines lines) LF = Some (length line))
      by (apply find_app_newline, Hnl).
    change (xsputn_loop (S fuel) cfg env owner tid lb w (line ++ LF :: join_lines lines))
      with (match find (line ++ LF :: join_lines lines) LF with
            | None => append cfg env owner tid lb w (line ++ LF :: join_lines lines)
            | Some nl =>
                '(bufptr, w0) ← (if (nl =? 0)%nat then Ok (lb, w)
                                 else append cfg env owner tid lb w
                                        (take nl (line ++ LF :: join_lines lines)));
                let '(bufptr, w0) := flush cfg env owner bufptr w0 in
                xsputn_loop fuel cfg env owner tid bufptr w0
                  (drop (S nl) (line ++ LF :: join_lines lines))
            end).
    rewrite Hfind. change (length line =? 0)%nat with false. cbv iota.
    rewrite take_app_length.
    replace (drop (S (length line)) (line ++ LF :: join_lines lines)) with (join_lines lines).
    2:{ rewrite (cons_middle LF line), app_assoc. symmetry. apply drop_app_length'.
        rewrite length_app. cbn [length]. lia. }
    rewrite append_begins by assumption. cbn [mbind result_bind].
    rewrite flush_single_write; [|assumption|].
    2:{ cbn [m_text set_text]. intros E. apply (f_equal length) in E.
        rewrite length_app in E. cbn in E. lia. }
    cbn [m_text set_text m_default_color set_default_color]. rewrite Hd.
    set (w1 := write_line env owner _ (tick w)).
    set (lb1 := set_text _ []).
    destruct (Hstep lb1 w1) as (lb' & w' & evs & Hrun & Hout & Hev & Hclear).
    { reflexivity. }
    { subst lb1. rewrite <- Hd. apply begin_color_stable. reflexivity. }
    eexists lb', w', (_ :: evs).
    split; [exact Hrun|]. split.
    { rewrite Hout. subst w1. rewrite write_line_out. cbn [w_out tick].
      rewrite <- app_assoc. reflexivity. }
    split; [|exact Hclear]. constructor; [|exact Hev].
    cbn [flushed_as line]. eexists _, _. rewrite <- app_assoc. reflexivity.
Qed.

(** X3.  Whole lines of at most 958 bytes each (short enough to fit under
    the cap behind any prefix) put into the stream in one call, on a target
    where [flush] is a single write and starting from an empty line
    buffer: each newline makes exactly one write, in order.  A line with
    content is written as prefix, content and suffix; an empty line is
    written as the line terminator alone, without a time stamp.  The
    buffer is empty afterwards. *)
Theorem xsputn_writes_one_event_per_line cfg env lg tid w (lines : list text) :
  single_write cfg lg = true ->
  m_prepend_time lg = true ->
  m_text (buffer env lg tid) = [] ->
  Forall (fun l => find l LF = None /\ size l <= 958) lines ->
  exists lg' w' evs,
    xsputn cfg env lg tid w (join_lines lines) = Ok (lg', w') /\
    w_out w' = w_out w ++ evs /\
    Forall2 (flushed_as cfg env lg tid (begin_color cfg lg (buffer env lg tid))) evs lines /\
    m_text (buffer env lg' tid) = [].
Proof.
  intros Hone Hstamps Hempty Hlines. unfold xsputn.
  destruct (xsputn_loop_lines cfg env lg tid (begin_color cfg lg (buffer env lg tid))
              Hone Hstamps lines (length (join_lines lines)) (buffer env lg tid) w)
    as (lb' & w' & evs & Hrun & Hout & Hev & Hclear); auto.
  rewrite Hrun. cbn [mbind result_bind].
  exists (with_buffer lg tid lb'), w', evs.
  rewrite buffer_with_buffer. auto.
Qed.

Lemma xsputn_writes_one_event_per_line_witness :
  let lines := [lit "one"; []; lit "two"] in
  Forall (fun l => find l LF = None /\ size l <= 958) lines /\
  exists lg' w' evs,
    xsputn posix_build sample_env file_logger sample_thread sample_world (join_lines lines)
      = Ok (lg', w') /\
    w_out w' = w_out sample_world ++ evs /\
    Forall2 (flushed_as posix_build sample_env file_logger sample_thread
               (begin_color posix_build file_logger
                  (buffer sample_env file_logger sample_thread))) evs lines /\
    m_text (buffer sample_env lg' sample_thread) = [].
Proof.
  intros lines.
  assert (H : Forall (fun l => find l LF = None /\ size l <= 958) lines).
  { repeat constructor; unfold size; cbn [length lit String.list_ascii_of_string]; lia. }
  split; [exact H|].
  exact (xsputn_writes_one_event_per_line posix_build sample_env file_logger sample_thread
           sample_world lines eq_refl eq_refl eq_refl H).
Defined.

(** X4.  Bytes without a newline that fit under the cap are only
    buffered: nothing is written; they are added behind the pending text,
    or behind a fresh prefix when the buffer was empty. *)
Theorem xsputn_without_newline_is_buffered cfg env lg tid w (buf : text) :
  m_prepend_time lg = true ->
  find buf LF = None ->
  buf <> [] ->
  size buf + size (m_text (buffer env lg tid)) <= 958 ->
  exists lg' w',
    xsputn cfg env lg tid w buf = Ok (lg', w') /\
    w_out w' = w_out w /\
    m_text (buffer env lg' tid) =
      match m_text (buffer env lg tid) with
      | [] => line_prefix cfg env lg tid (w_tick w)
      | pending => pending
      end ++ buf.
Proof.
  intros Hstamps Hnl Hne Hfit. unfold xsputn.
  destruct buf as [|c buf]; [congruence|]. cbn [length].
  rewrite xsputn_loop_no_newline by assumption.
  destruct (m_text (buffer env lg tid)) as [|x pending] eqn:Htext.
  - rewrite append_begins; [|assumption|assumption|lia].
    cbn [mbind result_bind]. eexists _, _. split; [reflexivity|].
    rewrite buffer_with_buffer. split; reflexivity.
  - rewrite append_continues.
    + cbn [mbind result_bind]. eexists _, _. split; [reflexivity|].
      rewrite buffer_with_buffer, Htext. split; reflexivity.
    + rewrite Htext. discriminate.
    + unfold s_limit. rewrite Htext. lia.
Qed.

Lemma xsputn_without_newline_is_buffered_witness :
  exists lg' w',
    xsputn posix_build sample_env file_logger sample_thread sample_world (lit "wait")
      = Ok (lg', w') /\
    w_out w' = w_out sample_world /\
    m_text (buffer sample_env lg' sample_thread) = lit "12:34:56.789 [0000abcd] wait".
Proof.
  destruct (xsputn_without_newline_is_buffered posix_build sample_env file_logger
              sample_thread sample_world (lit "wait"))
    as (lg' & w' & Hrun & Hout & Htext);
    [reflexivity|reflexivity|discriminate|apply N.leb_le; reflexivity|].
  exists lg', w'. auto.
Defined.

(** ** Redirection *)

Lemma closed_app (e1 e2 : list event) : closed (e1 ++ e2) = closed e1 ++ closed e2.
Proof. apply omap_app. Qed.

(** [flush] closes nothing. *)
Lemma flush_closes_nothing cfg env owner lb w :
  forall evs, w_out (flush cfg env owner lb w).2 = w_out w ++ evs -> closed evs = [].
Proof.
  intros evs Hevs.
  assert (H : exists evs', w_out (flush cfg env owner lb w).2 = w_out w ++ evs' /\ closed evs' = []).
  { unfold flush.
    destruct (target cfg) eqn:Ht.
    - destruct (m_use_color owner).
      + unfold set_custom_color, set_custom_color_win32. rewrite Ht.
        assert (Hwrite : forall lb0 w0, exists data ok,
                  w_out (if m_convert_cp lb0
                         then write_to_console env owner lb0 (m_text lb0) w0
                         else write_line env owner (m_text lb0) w0)
                  = w_out w0 ++ [EvWrite (m_con owner) data ok]).
        { intros lb0 w0. destruct (m_convert_cp lb0).
          - destruct (write_to_console_out env owner lb0 (m_text lb0) w0)
              as (data & ok & Hout & _). eauto.
          - eexists _, _. apply write_line_out. }
        destruct (no_color =? get_color owner).
        * destruct (Hwrite (set_default_color lb no_color) w) as (data & ok & Hout).
          cbn [fst snd]. destruct (_ =? no_color); rewrite write_line_out;
            cbn [w_out SetConsoleTextAttribute]; rewrite Hout;
            (eexists; split; [rewrite <- !app_assoc; reflexivity|reflexivity]).
        * destruct (GetConsoleScreenBufferInfo (m_con owner) w) as [attr|].
          -- destruct (Hwrite (set_default_color lb attr)
                         (SetConsoleTextAttribute (m_con owner) (get_color owner) (tick w)))
               as (data & ok & Hout).
             cbn [fst snd]. destruct (_ =? no_color); rewrite write_line_out;
               cbn [w_out SetConsoleTextAttribute]; rewrite Hout;
               cbn [w_out SetConsoleTextAttribute tick];
               (eexists; split; [rewrite <- !app_assoc; reflexivity|reflexivity]).
          -- destruct (Hwrite (set_default_color lb no_color) (tick w)) as (data & ok & Hout).
             cbn [fst snd]. destruct (_ =? no_color); rewrite write_line_out;
               cbn [w_out SetConsoleTextAttribute]; rewrite Hout; cbn [w_out tick];
               (eexists; split; [rewrite <- !app_assoc; reflexivity|reflexivity]).
      + cbn [snd]. rewrite write_line_out. eexists. split; reflexivity.
    - cbn [snd]. rewrite write_line_out. eexists. split; reflexivity. }
  destruct H as (evs' & Hout & Hclosed). rewrite Hout in Hevs.
  apply app_inv_head in Hevs. subst evs'. exact Hclosed.
Qed.

(** X5.  A successful [redirect (filename)]: the pending text of the
    calling thread is flushed to the old handle first (an empty buffer
    too, which writes a bare line terminator there); then the old handle is
    closed if the logger had opened it, and the new one is positioned at its
    end on Win32.  The logger is left on the new handle, which it owns,
    with colour off and the custom colour kept, and the thread's buffer is
    empty. *)
Theorem redirect_to_file cfg env lg tid w (filename : string) (file : raw_handle) :
  env_create_file env (w_tick w) filename = Some file ->
  exists lg' w' evs,
    redirect cfg env lg tid w filename = (lg', w', true) /\
    m_con lg' = file /\
    m_use_color lg' = false /\
    m_opened_file lg' = true /\
    m_custom_color lg' = m_custom_color lg /\
    m_text (buffer env lg' tid) = [] /\
    w_out w' = w_out w ++ evs
                 ++ (if m_opened_file lg then [EvClose (m_con lg)] else [])
                 ++ match target cfg with Win32 => [EvSeekEnd file] | Posix => [] end /\
    Forall (fun e => event_handle e = m_con lg) evs /\
    closed evs = [] /\
    (m_convert_cp (buffer env lg tid) = false \/ plain (m_text (buffer env lg tid)) = true ->
     written (m_con lg) evs
       = m_text (buffer env lg tid) ++ flush_tail cfg (buffer env lg tid)).
Proof.
  intros Hopen. unfold redirect. rewrite Hopen.
  destruct (flush_effect cfg env lg (buffer env lg tid) (tick w)) as (evs & Hout & Hon & Hbytes).
  pose proof (flush_closes_nothing cfg env lg (buffer env lg tid) (tick w) evs Hout) as Hclosed.
  pose proof (flush_text cfg env lg (buffer env lg tid) (tick w)) as Hclear.
  destruct (flush cfg env lg (buffer env lg tid) (tick w)) as [lb w1].
  cbn [fst snd] in *.
  change (m_opened_file (with_buffer lg tid lb)) with (m_opened_file lg).
  change (m_con (with_buffer lg tid lb)) with (m_con lg).
  eexists _, _, evs. split; [reflexivity|].
  do 4 (split; [reflexivity|]).
  split.
  { unfold buffer, adopt. cbn [m_buffer with_buffer]. rewrite lookup_insert_eq. exact Hclear. }
  split.
  { destruct (m_opened_file lg), (target cfg);
      cbn [w_out close_file seek_end emit]; rewrite Hout; cbn [w_out tick];
      rewrite <- ?app_assoc, ?app_nil_r; reflexivity. }
  auto.
Qed.

Lemma redirect_to_file_witness :
  exists lg' w',
    redirect posix_build opening_env tty_logger sample_thread sample_world "app.log"
      = (lg', w', true) /\
    m_con lg' = 7%Z /\ m_use_color lg' = false /\ m_opened_file lg' = true /\
    w_out w' = [EvWrite 2%Z [LF] true].
Proof.
  destruct (redirect_to_file posix_build opening_env tty_logger sample_thread sample_world
              "app.log" 7%Z eq_refl)
    as (lg' & w' & evs & Hr & Hcon & Hcol & Hown & _ & _ & Hout & _).
  exists lg', w'. repeat split; try assumption.
  vm_compute in Hr. injection Hr as _ <-. reflexivity.
Defined.

(** X6.  [redirect (handle)]: the pending text is flushed to the old handle
    and the old handle is closed if the logger had opened it; the logger
    is left on the given handle, which it does not own.  On POSIX colour
    is on exactly when the handle is a terminal, and any other handle is
    positioned at its end; on Win32 colour is on exactly for a character
    device, and only a disk file is positioned at its end. *)
Theorem redirect_to_handle cfg env lg tid w (file : raw_handle) :
  exists lg' w' evs,
    redirect_handle cfg env lg tid w file = (lg', w') /\
    m_con lg' = file /\
    m_opened_file lg' = false /\
    m_custom_color lg' = m_custom_color lg /\
    m_text (buffer env lg' tid) = [] /\
    m_use_color lg' =
      match target cfg with
      | Posix => env_isatty env file
      | Win32 => match env_file_type env file with FILE_TYPE_CHAR => true | _ => false end
      end /\
    w_out w' = w_out w ++ evs
                 ++ (if m_opened_file lg then [EvClose (m_con lg)] else [])
                 ++ (if match target cfg with
                        | Posix => negb (env_isatty env file)
                        | Win32 => match env_file_type env file with
                                   | FILE_TYPE_DISK => true
                                   | _ => false
                                   end
                        end
                     then [EvSeekEnd file] else []) /\
    Forall (fun e => event_handle e = m_con lg) evs /\
    closed evs = [].
Proof.
  unfold redirect_handle.
  destruct (flush_effect cfg env lg (buffer env lg tid) w) as (evs & Hout & Hon & _).
  pose proof (flush_closes_nothing cfg env lg (buffer env lg tid) w evs Hout) as Hclosed.
  pose proof (flush_text cfg env lg (buffer env lg tid) w) as Hclear.
  destruct (flush cfg env lg (buffer env lg tid) w) as [lb w1].
  cbn [fst snd] in *.
  change (m_opened_file (with_buffer lg tid lb)) with (m_opened_file lg).
  change (m_con (with_buffer lg tid lb)) with (m_con lg).
  assert (Hbuf : forall c o, m_text (buffer env (adopt (with_buffer lg tid lb) file c o) tid) = []).
  { intros c o. unfold buffer, adopt. cbn [m_buffer with_buffer].
    rewrite lookup_insert_eq. exact Hclear. }
  destruct (target cfg).
  - destruct (env_file_type env file); eexists _, _, evs; (split; [reflexivity|]);
      do 3 (split; [reflexivity|]); (split; [apply Hbuf|]); (split; [reflexivity|]);
      (split; [|auto]);
      destruct (m_opened_file lg); cbn [w_out close_file seek_end emit]; rewrite Hout;
      rewrite <- ?app_assoc, ?app_nil_r; reflexivity.
  - destruct (env_isatty env file); eexists _, _, evs; (split; [reflexivity|]);
      do 3 (split; [reflexivity|]); (split; [apply Hbuf|]); (split; [reflexivity|]);
      (split; [|auto]);
      destruct (m_opened_file lg); cbn [w_out close_file seek_end emit negb]; rewrite Hout;
      rewrite <- ?app_assoc, ?app_nil_r; reflexivity.
Qed.

(** X7.  The logger closes exactly what it owns.  Each redirection that
    goes through closes the handle the logger had opened itself, if any,
    and nothing else; a failed [redirect (filename)] closes nothing and
    owns what it owned; after [redirect (filename)] the logger owns the new
    file, after [redirect (handle)] it owns nothing; the destructor closes
    what is owned. *)
Theorem logger_closes_what_it_owns cfg env lg tid w :
  (forall filename : string,
     let '(lg', w', ok) := redirect cfg env lg tid w filename in
     exists evs,
       w_out w' = w_out w ++ evs /\
       closed evs = (if ok then owned lg else []) /\
       owned lg' = (if ok then [m_con lg'] else owned lg)) /\
  (forall file : raw_handle,
     let '(lg', w') := redirect_handle cfg env lg tid w file in
     exists evs,
       w_out w' = w_out w ++ evs /\ closed evs = owned lg /\ owned lg' = []) /\
  (exists evs, w_out (delete_logger lg w) = w_out w ++ evs /\ closed evs = owned lg).
Proof.
  split; [|split].
  - intros filename. unfold redirect.
    destruct (env_create_file env (w_tick w) filename) as [file|].
    + destruct (flush_effect cfg env lg (buffer env lg tid) (tick w)) as (evs & Hout & _).
      pose proof (flush_closes_nothing cfg env lg (buffer env lg tid) (tick w) evs Hout) as Hc.
      destruct (flush cfg env lg (buffer env lg tid) (tick w)) as [lb w1].
      cbn [fst snd] in *.
      change (m_opened_file (with_buffer lg tid lb)) with (m_opened_file lg).
      change (m_con (with_buffer lg tid lb)) with (m_con lg).
      unfold owned.
      destruct (m_opened_file lg), (target cfg); cbn [w_out close_file seek_end emit];
        rewrite Hout; cbn [w_out tick]; eexists;
        (split; [rewrite <- ?app_assoc; try reflexivity; rewrite app_nil_r; reflexivity|]);
        rewrite ?closed_app, ?Hc; split; reflexivity.
    + exists []. cbn. rewrite app_nil_r. auto.
  - intros file. unfold redirect_handle.
    destruct (flush_effect cfg env lg (buffer env lg tid) w) as (evs & Hout & _).
    pose proof (flush_closes_nothing cfg env lg (buffer env lg tid) w evs Hout) as Hc.
    destruct (flush cfg env lg (buffer env lg tid) w) as [lb w1].
    cbn [fst snd] in *.
    change (m_opened_file (with_buffer lg tid lb)) with (m_opened_file lg).
    change (m_con (with_buffer lg tid lb)) with (m_con lg).
    unfold owned.
    destruct (target cfg); [destruct (env_file_type env file)|destruct (env_isatty env file)];
      destruct (m_opened_file lg); cbn [w_out close_file seek_end emit];
      rewrite Hout; eexists;
      (split; [rewrite <- ?app_assoc; try reflexivity; rewrite app_nil_r; reflexivity|]);
      rewrite ?closed_app, ?Hc; split; reflexivity.
  - unfold delete_logger, owned. destruct (m_opened_file lg).
    + eexists. split; reflexivity.
    + exists []. rewrite app_nil_r. split; reflexivity.
Qed.

(** ** One line, exactly *)

(** A short line put into the stream in one call, where [flush] is a
    single write: the logger and the world that result. *)
Lemma xsputn_one_line cfg env lg tid w (l : text) :
  single_write cfg lg = true ->
  m_prepend_time lg = true ->
  m_text (buffer env lg tid) = [] ->
  l <> [] ->
  find l LF = None ->
  size l <= 958 ->
  xsputn cfg env lg tid w (l ++ [LF]) =
    Ok (with_buffer lg tid
          (set_text (set_default_color (buffer env lg tid)
                       (begin_color cfg lg (buffer env lg tid))) []),
        write_line env lg
          (line_prefix cfg env lg tid (w_tick w) ++ l
             ++ line_suffix cfg (begin_color cfg lg (buffer env lg tid)))
          (tick w)).
Proof.
  intros Hone Hstamps Hempty Hne Hnl Hshort. unfold xsputn.
  destruct l as [|c l]; [congruence|].
  replace (length ((c :: l) ++ [LF])) with (S (S (length l)))
    by (rewrite length_app; cbn [length]; lia).
  rewrite (xsputn_loop_one_line _ _ _ _ _ _ _ _ (length l)).
  - change (S (length l)) with (length (c :: l)).
    rewrite take_app_length. rewrite append_begins by assumption.
    cbn [mbind result_bind].
    rewrite flush_single_write; [|assumption|].
    + cbn [m_text set_text m_default_color set_default_color mbind result_bind].
      rewrite <- app_assoc. reflexivity.
    + cbn [m_text set_text]. intros E. apply (f_equal length) in E.
      rewrite length_app in E. cbn in E. lia.
  - apply (find_app_newline (c :: l) [] LF Hnl).
  - apply drop_ge. rewrite length_app. cbn [length]. lia.
Qed.

(** X8.  On the ANSI target the reset sequence follows [m_default_color],
    not the colour flag of the logger.  A thread writes a coloured line to
    a terminal; the logger is then redirected to a file, which turns
    colour off; the thread's next line goes to the file without a colour
    sequence in front, but still with the reset sequence behind it. *)
Theorem reset_sequence_survives_redirect cfg env lg tid w (l1 l2 : text)
    (filename : string) (file : raw_handle) :
  target cfg = Posix ->
  m_use_color lg = true ->
  get_color lg <> no_color ->
  m_prepend_time lg = true ->
  m_text (buffer env lg tid) = [] ->
  l1 <> [] -> find l1 LF = None -> size l1 <= 958 ->
  l2 <> [] -> find l2 LF = None -> size l2 <= 958 ->
  (forall n, env_create_file env n filename = Some file) ->
  exists lg1 w1 lg2 w2 lg3 w3 ok,
    xsputn cfg env lg tid w (l1 ++ [LF]) = Ok (lg1, w1) /\
    redirect cfg env lg1 tid w1 filename = (lg2, w2, true) /\
    m_use_color lg2 = false /\
    xsputn cfg env lg2 tid w2 (l2 ++ [LF]) = Ok (lg3, w3) /\
    w_out w3 = w_out w2
                 ++ [EvWrite file (stamp cfg env tid (w_tick w2) ++ l2 ++ ansi_reset ++ [LF]) ok].
Proof.
  intros Ht Hc Hne Hstamps Hempty Hl1 Hnl1 Hs1 Hl2 Hnl2 Hs2 Hopen.
  assert (Hone : forall lg0, single_write cfg lg0 = true)
    by (intros lg0; unfold single_write; rewrite Ht; reflexivity).
  set (lb0 := buffer env lg tid) in *.
  assert (Hd : begin_color cfg lg lb0 = get_color lg)
    by (unfold begin_color; rewrite Ht, Hc; reflexivity).
  set (lbA := set_text (set_default_color lb0 (get_color lg)) []).
  rewrite (xsputn_one_line cfg env lg tid w l1) by auto. fold lb0. rewrite Hd. fold lbA.
  set (w1 := write_line env lg _ (tick w)).
  set (lg1 := with_buffer lg tid lbA).
  set (w2 := let w := write_line env lg1 (line_terminator cfg) (tick w1) in
             if m_opened_file lg then close_file (m_con lg) w else w).
  set (lg2 := adopt (with_buffer lg1 tid lbA) file false true).
  assert (Hredirect : redirect cfg env lg1 tid w1 filename = (lg2, w2, true)).
  { unfold redirect. rewrite Hopen. subst lg1. rewrite buffer_with_buffer.
    rewrite flush_empty by auto. rewrite Ht. reflexivity. }
  assert (Hbuf : buffer env lg2 tid = lbA).
  { subst lg2. unfold buffer, adopt. cbn [m_buffer with_buffer].
    rewrite lookup_insert_eq. reflexivity. }
  assert (Hbegin : begin_color cfg lg2 lbA = get_color lg).
  { unfold begin_color. rewrite Ht. reflexivity. }
  assert (Hprefix : forall n, line_prefix cfg env lg2 tid n = stamp cfg env tid n).
  { intros n. unfold line_prefix, color_prefix. rewrite Ht. reflexivity. }
  assert (Hsuffix : line_suffix cfg (get_color lg) = ansi_reset ++ [LF]).
  { unfold line_suffix. rewrite Ht.
    destruct (N.eqb_spec (get_color lg) no_color) as [E|_]; [congruence|reflexivity]. }
  eexists lg1, w1, lg2, w2, _, _, _.
  split; [reflexivity|]. split; [exact Hredirect|]. split; [reflexivity|].
  rewrite (xsputn_one_line cfg env lg2 tid w2 l2); auto.
  - split; [reflexivity|].
    rewrite write_line_out, Hbuf, Hbegin, Hprefix, Hsuffix. reflexivity.
  - rewrite Hbuf. reflexivity.
Qed.

Lemma reset_sequence_survives_redirect_witness :
  exists lg1 w1 lg2 w2 lg3 w3,
    xsputn posix_build opening_env tty_logger sample_thread sample_world (lit "on tty" ++ [LF])
      = Ok (lg1, w1) /\
    redirect posix_build opening_env lg1 sample_thread w1 "app.log" = (lg2, w2, true) /\
    m_use_color lg2 = false /\
    xsputn posix_build opening_env lg2 sample_thread w2 (lit "in file" ++ [LF]) = Ok (lg3, w3) /\
    w_out w3 = w_out w2
                 ++ [EvWrite 7%Z (lit "12:34:56.789 [0000abcd] in file" ++ ansi_reset ++ [LF]) true].
Proof.
  destruct (reset_sequence_survives_redirect posix_build opening_env tty_logger sample_thread
              sample_world (lit "on tty") (lit "in file") "app.log" 7%Z)
    as (lg1 & w1 & lg2 & w2 & lg3 & w3 & ok & H1 & H2 & H3 & H4 & H5);
    try reflexivity; try discriminate; try (apply N.leb_le; reflexivity).
  exists lg1, w1, lg2, w2, lg3, w3.
  split; [exact H1|]. split; [exact H2|]. split; [exact H3|]. split; [exact H4|].
  rewrite H5. f_equal. f_equal.
  vm_compute in H1. injection H1 as <- <-.
  vm_compute in H2. injection H2 as <- <-.
  vm_compute in H4. injection H4 as _ <-.
  vm_compute in H5. injection H5 as <-. reflexivity.
Defined.

(** ** A line that fills the buffer exactly *)

(** [append] to an empty buffer of bytes that, with the prefix, reach the
    cap exactly: they are kept, nothing is flushed. *)
Lemma append_fills_exactly cfg env owner tid lb w (buf : text) :
  m_prepend_time owner = true ->
  m_text lb = [] ->
  size buf + size (line_prefix cfg env owner tid (w_tick w)) <= s_limit ->
  append cfg env owner tid lb w buf =
    Ok (set_text (set_default_color lb (begin_color cfg owner lb))
                 (line_prefix cfg env owner tid (w_tick w) ++ buf),
        tick w).
Proof.
  intros Hp He Hfit. unfold append.
  rewrite Hp, bool_decide_eq_true_2 by exact He. cbn [andb].
  rewrite append_time_prefix, He. cbn [app].
  rewrite append_loop_unfold. cbn [m_text set_text].
  destruct (N.leb_spec (size buf + size (line_prefix cfg env owner tid (w_tick w))) s_limit)
    as [_|Hover]; [|lia].
  cbn [mbind result_bind m_text set_text].
  destruct (N.eqb_spec (size buf) 0) as [E|_]; [|reflexivity].
  apply size_nil_iff in E. subst buf. rewrite app_nil_r. reflexivity.
Qed.

Lemma size_positive (s : text) : s <> [] -> 0 < size s.
Proof. destruct s; [congruence|]. intros _. unfold size. cbn [length]. lia. Qed.

(** X9.  The cap is inclusive, the assertion is not.  Bytes that, with
    the prefix, make exactly 1000 are kept in the buffer without a flush;
    in a build with assertions the next call of [append] with at least one
    byte, made before the line is flushed, fails the [assert] of the
    loop. *)
Theorem full_line_then_a_byte_fails_the_assert cfg env owner tid lb w (buf more : text) :
  NDEBUG cfg = false ->
  m_prepend_time owner = true ->
  m_text lb = [] ->
  size buf + size (line_prefix cfg env owner tid (w_tick w)) = s_limit ->
  more <> [] ->
  exists lb1,
    append cfg env owner tid lb w buf = Ok (lb1, tick w) /\
    size (m_text lb1) = s_limit /\
    append cfg env owner tid lb1 (tick w) more = AssertFailed.
Proof.
  intros Hnd Hp He Hfull Hmore.
  rewrite append_fills_exactly by (try assumption; lia).
  eexists. split; [reflexivity|].
  cbn [m_text set_text]. rewrite size_app.
  split; [lia|].
  unfold append. rewrite Hp. cbn [andb m_text set_text].
  rewrite bool_decide_eq_false_2.
  2:{ intros E. apply size_nil_iff in E. rewrite size_app in E. unfold s_limit in *. lia. }
  rewrite append_loop_unfold. cbn [m_text set_text]. rewrite size_app.
  pose proof (size_positive more Hmore) as Hpos.
  destruct (N.leb_spec (size more + (size (line_prefix cfg env owner tid (w_tick w)) + size buf))
              s_limit) as [Hfit|_]; [lia|].
  cbn [length]. rewrite Hnd. cbn [negb andb].
  destruct (N.ltb_spec (size (line_prefix cfg env owner tid (w_tick w)) + size buf) s_limit)
    as [Hlt|_]; [lia|].
  reflexivity.
Qed.

Lemma full_line_then_a_byte_fails_the_assert_witness :
  exists lb1,
    append posix_build sample_env file_logger sample_thread (new_line_buffer sample_env)
      sample_world (replicate 976 "x"%char) = Ok (lb1, tick sample_world) /\
    size (m_text lb1) = s_limit /\
    append posix_build sample_env file_logger sample_thread lb1 (tick sample_world)
      (lit "y") = AssertFailed.
Proof.
  apply (full_line_then_a_byte_fails_the_assert posix_build sample_env file_logger
           sample_thread (new_line_buffer sample_env) sample_world
           (replicate 976 "x"%char) (lit "y")); try reflexivity.
  discriminate.
Defined.

(** X10.  The same calls in a build without assertions, where [flush] is a
    single write: the second [append] flushes the full line of exactly
    1000 bytes and its suffix, and starts a new line, with a prefix of its
    own, for its bytes. *)
Theorem full_line_then_a_byte_starts_a_new_line cfg env owner tid lb w (buf more : text) :
  NDEBUG cfg = true ->
  single_write cfg owner = true ->
  m_prepend_time owner = true ->
  m_text lb = [] ->
  size buf + size (line_prefix cfg env owner tid (w_tick w)) = s_limit ->
  more <> [] ->
  size more <= 958 ->
  exists lb1 lb2 w2 ok,
    append cfg env owner tid lb w buf = Ok (lb1, tick w) /\
    append cfg env owner tid lb1 (tick w) more = Ok (lb2, w2) /\
    w_out w2 = w_out w
                 ++ [EvWrite (m_con owner)
                       (line_prefix cfg env owner tid (w_tick w) ++ buf
                          ++ line_suffix cfg (begin_color cfg owner lb)) ok] /\
    length (line_prefix cfg env owner tid (w_tick w) ++ buf) = 1000%nat /\
    m_text lb2 = line_prefix cfg env owner tid (S (S (w_tick w))) ++ more.
Proof.
  intros Hnd Hone Hp He Hfull Hmore Hshort.
  rewrite append_fills_exactly by (try assumption; lia).
  set (pre := line_prefix cfg env owner tid (w_tick w)) in *.
  set (d := begin_color cfg owner lb).
  set (lb1 := set_text (set_default_color lb d) (pre ++ buf)).
  assert (Hsize : size (pre ++ buf) = s_limit) by (rewrite size_app; lia).
  assert (Hne : pre ++ buf <> []).
  { intros E. rewrite E in Hsize. discriminate. }
  pose proof (size_positive more Hmore) as Hpos.
  pose proof (line_prefix_length cfg env owner tid (S (S (w_tick w)))) as Hlen.
  eexists lb1, _, _, _. split; [reflexivity|].
  split.
  { unfold append. rewrite Hp. cbn [andb]. subst lb1. cbn [m_text set_text].
    rewrite bool_decide_eq_false_2 by exact Hne.
    rewrite append_loop_unfold. cbn [m_text set_text]. rewrite Hsize.
    destruct (N.leb_spec (size more + s_limit) s_limit) as [Hfit|_]; [lia|].
    cbn [length]. rewrite Hnd. cbn [negb andb]. cbv zeta.
    change (size_t_sub s_limit s_limit) with 0.
    rewrite N.min_0_l. change (N.to_nat 0) with 0%nat.
    rewrite take_0, drop_0, app_nil_r.
    rewrite flush_single_write by assumption.
    cbn [m_text set_text m_default_color set_default_color].
    destruct (N.eqb_spec (size more) 0) as [E|_]; [lia|]. rewrite Hp. cbn [negb andb].
    rewrite append_time_prefix. cbn [m_text set_text app w_tick write_line write_file emit fst tick].
    rewrite append_loop_unfold. cbn [m_text set_text].
    destruct (N.leb_spec (size more + size (line_prefix cfg env owner tid (S (S (w_tick w)))))
                s_limit) as [_|Hover]; [|unfold size, s_limit in *; lia].
    cbn [mbind result_bind m_text set_text].
    destruct (N.eqb_spec (size more) 0) as [E|_]; [lia|]. reflexivity. }
  split.
  { cbn [w_out tick]. rewrite <- app_assoc. reflexivity. }
  split; [|reflexivity].
  unfold size, s_limit in Hsize. lia.
Qed.

Lemma full_line_then_a_byte_starts_a_new_line_witness :
  exists lb1 lb2 w2,
    append ndebug_build sample_env file_logger sample_thread (new_line_buffer sample_env)
      sample_world (replicate 976 "x"%char) = Ok (lb1, tick sample_world) /\
    append ndebug_build sample_env file_logger sample_thread lb1 (tick sample_world)
      (lit "y") = Ok (lb2, w2) /\
    m_text lb2 = lit "12:34:56.789 [0000abcd] y".
Proof.
  destruct (full_line_then_a_byte_starts_a_new_line ndebug_build sample_env file_logger
              sample_thread (new_line_buffer sample_env) sample_world
              (replicate 976 "x"%char) (lit "y"))
    as (lb1 & lb2 & w2 & ok & H1 & H2 & _ & _ & H3);
    try reflexivity; try discriminate.
  exists lb1, lb2, w2. auto.
Defined.

(** ** The console-attribute target *)

(** [write_to_console] is one [write_line]. *)
Lemma write_to_console_is_write_line env owner lb (s : text) w :
  exists data,
    write_to_console env owner lb s w = write_line env owner data w /\
    (data = m_text lb \/
     plain s = false /\ data <> [] /\
     exists wbuf, to_wide env s = Some wbuf /\ to_console env wbuf = Some data).
Proof.
  unfold write_to_console. fold (plain s).
  destruct (plain s) eqn:Hs; [eauto|].
  destruct (to_wide env s) as [wbuf|] eqn:Hw; [|eauto].
  destruct (to_console env wbuf) as [cbuf|] eqn:Hc; [|eauto].
  exists cbuf. split; [reflexivity|]. right. split; [reflexivity|]. split; [|eauto].
  unfold to_console in Hc.
  destruct (env_WideCharToMultiByte env wbuf (N.of_nat (length wbuf))) as [[|c out]| |];
    try discriminate.
  - injection Hc as <-. discriminate.
  - destruct (env_WideCharToMultiByte env wbuf (env_WideCharToMultiByte_size env wbuf))
      as [[|c out]| |]; try discriminate.
    injection Hc as <-. discriminate.
Qed.

(** X11.  [write_to_console] never drops a line and never writes an empty
    conversion: it makes exactly one write on the logger's handle; what is
    written is the unconverted text, unless the text has a byte above 0x7f
    and both conversions gave at least one character, and then it is the
    converted text.  Text of 7-bit characters is written as it is whatever
    the conversion functions would answer. *)
Theorem write_to_console_writes_once env owner lb w :
  exists data,
    write_to_console env owner lb (m_text lb) w = write_line env owner data w /\
    (plain (m_text lb) = true -> data = m_text lb) /\
    (to_wide env (m_text lb) = None -> data = m_text lb) /\
    (forall wbuf, to_wide env (m_text lb) = Some wbuf -> to_console env wbuf = None ->
                  data = m_text lb) /\
    (data <> m_text lb ->
     data <> [] /\ exists wbuf, to_wide env (m_text lb) = Some wbuf /\
                                to_console env wbuf = Some data).
Proof.
  destruct (write_to_console_is_write_line env owner lb (m_text lb) w)
    as (data & Hrun & [->|(Hplain & Hne & wbuf & Hw & Hc)]).
  - exists (m_text lb). split; [exact Hrun|]. repeat split; auto; congruence.
  - exists data. split; [exact Hrun|].
    split; [congruence|]. split; [congruence|].
    split; [intros wbuf' Hw' Hc'; congruence|]. eauto.
Qed.

Lemma write_to_console_writes_once_witness :
  let lb := set_text (new_line_buffer sample_env) (lit "hello") in
  exists data,
    write_to_console sample_env tty_logger lb (m_text lb) sample_world
      = write_line sample_env tty_logger data sample_world /\
    data = lit "hello".
Proof.
  intros lb.
  destruct (write_to_console_writes_once sample_env tty_logger lb sample_world)
    as (data & Hrun & Hplain & _).
  exists data. split; [exact Hrun|]. apply Hplain. reflexivity.
Defined.

Lemma SetConsoleTextAttribute_twice (h : raw_handle) (c attr : N) (m : gmap Z N) :
  m !! h = Some attr -> <[h := attr]> (<[h := c]> m) = m.
Proof. intros H. rewrite insert_insert_eq. apply insert_id, H. Qed.

(** X12.  The coloured [flush] of the Win32 target on a console: the
    calls are, in this order, the custom colour, the text, the attribute
    word that was found, and the line terminator; the console is left with
    the attribute word it had, and the buffer is empty. *)
Theorem win32_flush_restores_the_console cfg env owner lb w (attr : N) :
  target cfg = Win32 ->
  m_use_color owner = true ->
  get_color owner <> no_color ->
  w_console w !! m_con owner = Some attr ->
  attr <> no_color ->
  exists data ok1 ok2,
    w_out (flush cfg env owner lb w).2 =
      w_out w ++ [EvSetAttr (m_con owner) (get_color owner);
                  EvWrite (m_con owner) data ok1;
                  EvSetAttr (m_con owner) attr;
                  EvWrite (m_con owner) [CR; LF] ok2] /\
    (m_convert_cp lb = false \/ plain (m_text lb) = true -> data = m_text lb) /\
    w_console (flush cfg env owner lb w).2 = w_console w /\
    (flush cfg env owner lb w).1 = set_text (set_default_color lb attr) [].
Proof.
  intros Ht Hc Hne Hattr Hsaved.
  unfold flush, set_custom_color, set_custom_color_win32, GetConsoleScreenBufferInfo.
  rewrite Ht, Hc.
  destruct (N.eqb_spec no_color (get_color owner)) as [E|_]; [congruence|].
  cbn [w_console tick]. rewrite Hattr.
  cbn [m_convert_cp m_text m_default_color set_default_color].
  destruct (N.eqb_spec attr no_color) as [E|_]; [congruence|].
  set (w1 := SetConsoleTextAttribute (m_con owner) (get_color owner) (tick w)).
  assert (Hwrite : exists data,
            (if m_convert_cp lb
             then write_to_console env owner (set_default_color lb attr) (m_text lb) w1
             else write_line env owner (m_text lb) w1) = write_line env owner data w1 /\
            (m_convert_cp lb = false \/ plain (m_text lb) = true -> data = m_text lb)).
  { destruct (m_convert_cp lb).
    - destruct (write_to_console_is_write_line env owner (set_default_color lb attr)
                  (m_text lb) w1) as (data & Hrun & Hdata).
      exists data. split; [exact Hrun|]. intros [H|H]; [discriminate|].
      destruct Hdata as [->|(Hp & _)]; [reflexivity|congruence].
    - exists (m_text lb). auto. }
  destruct Hwrite as (data & -> & Hdata).
  exists data. eexists _, _. cbn [fst snd].
  split; [|split; [exact Hdata|split; [|reflexivity]]].
  - cbn [w_out write_line write_file emit fst SetConsoleTextAttribute]. subst w1.
    cbn [w_out SetConsoleTextAttribute tick]. rewrite <- !app_assoc. reflexivity.
  - cbn [w_console write_line write_file emit fst SetConsoleTextAttribute]. subst w1.
    cbn [w_console SetConsoleTextAttribute tick]. rewrite Hattr, lookup_insert_eq.
    apply SetConsoleTextAttribute_twice, Hattr.
Qed.

Lemma win32_flush_restores_the_console_witness :
  let lb := set_text (new_line_buffer sample_env) (lit "10:00:00.000 [0001] hello") in
  exists data ok1 ok2,
    w_out (flush win32_build sample_env tty_logger lb sample_world).2 =
      w_out sample_world ++ [EvSetAttr 2%Z EXT_LOG_COLOR; EvWrite 2%Z data ok1;
                             EvSetAttr 2%Z 7; EvWrite 2%Z [CR; LF] ok2] /\
    (m_convert_cp lb = false \/ plain (m_text lb) = true -> data = m_text lb) /\
    w_console (flush win32_build sample_env tty_logger lb sample_world).2
      = w_console sample_world /\
    (flush win32_build sample_env tty_logger lb sample_world).1 = set_text (set_default_color lb 7) [].
Proof.
  intros lb.
  apply (win32_flush_restores_the_console win32_build sample_env tty_logger lb sample_world 7);
    try reflexivity; discriminate.
Defined.

(** X13.  The coloured [flush] of the Win32 target when there is nothing
    to colour (the custom colour is the sentinel, or the handle is not a
    console): no attribute is set; the text and the line terminator are
    written, as two writes, and the buffer is left empty with the
    sentinel as its saved colour. *)
Theorem win32_flush_without_console cfg env owner lb w :
  target cfg = Win32 ->
  m_use_color owner = true ->
  get_color owner = no_color \/ w_console w !! m_con owner = None ->
  exists data ok1 ok2,
    w_out (flush cfg env owner lb w).2 =
      w_out w ++ [EvWrite (m_con owner) data ok1; EvWrite (m_con owner) [CR; LF] ok2] /\
    (m_convert_cp lb = false \/ plain (m_text lb) = true -> data = m_text lb) /\
    w_console (flush cfg env owner lb w).2 = w_console w /\
    (flush cfg env owner lb w).1 = set_text (set_default_color lb no_color) [].
Proof.
  intros Ht Hc Hnone.
  unfold flush, set_custom_color, set_custom_color_win32, GetConsoleScreenBufferInfo.
  rewrite Ht, Hc.
  assert (Hwrite : forall w1, exists data,
            (if m_convert_cp lb
             then write_to_console env owner (set_default_color lb no_color) (m_text lb) w1
             else write_line env owner (m_text lb) w1) = write_line env owner data w1 /\
            (m_convert_cp lb = false \/ plain (m_text lb) = true -> data = m_text lb)).
  { intros w1. destruct (m_convert_cp lb).
    - destruct (write_to_console_is_write_line env owner (set_default_color lb no_color)
                  (m_text lb) w1) as (data & Hrun & Hdata).
      exists data. split; [exact Hrun|]. intros [H|H]; [discriminate|].
      destruct Hdata as [->|(Hp & _)]; [reflexivity|congruence].
    - exists (m_text lb). auto. }
  assert (Hcase : (no_color =? get_color owner) = true \/
                  (no_color =? get_color owner) = false /\ w_console w !! m_con owner = None).
  { destruct (N.eqb_spec no_color (get_color owner)) as [E|E]; [auto|].
    right. split; [reflexivity|]. destruct Hnone; congruence. }
  destruct Hcase as [->|[-> Hlook]].
  - cbn [m_convert_cp m_text m_default_color set_default_color fst snd].
    destruct (Hwrite w) as (data & -> & Hdata). rewrite N.eqb_refl.
    exists data. eexists _, _.
    split; [|split; [exact Hdata|split; reflexivity]].
    cbn [w_out write_line write_file emit fst]. rewrite <- app_assoc. reflexivity.
  - cbn [w_console tick]. rewrite Hlook.
    cbn [m_convert_cp m_text m_default_color set_default_color fst snd].
    destruct (Hwrite (tick w)) as (data & -> & Hdata). rewrite N.eqb_refl.
    exists data. eexists _, _.
    split; [|split; [exact Hdata|split; reflexivity]].
    cbn [w_out write_line write_file emit fst tick]. rewrite <- app_assoc. reflexivity.
Qed.

Lemma win32_flush_without_console_witness :
  let lb := set_text (new_line_buffer sample_env) (lit "hello") in
  let lg := adopt tty_logger 9%Z true false in
  exists data ok1 ok2,
    w_out (flush win32_build sample_env lg lb sample_world).2 =
      w_out sample_world ++ [EvWrite 9%Z data ok1; EvWrite 9%Z [CR; LF] ok2] /\
    (m_convert_cp lb = false \/ plain (m_text lb) = true -> data = m_text lb) /\
    w_console (flush win32_build sample_env lg lb sample_world).2 = w_console sample_world /\
    (flush win32_build sample_env lg lb sample_world).1
      = set_text (set_default_color lb no_color) [].
Proof.
  intros lb lg.
  apply (win32_flush_without_console win32_build sample_env lg lb sample_world);
    try reflexivity.
  right. reflexivity.
Defined.

(** ** Time stamps *)

(** X14.  [append_time] only adds to the text, at its end, at most 42
    bytes (10 of colour sequence and the 32 of [cvtbuf]), all of them
    7-bit characters; it writes nothing. *)
Theorem append_time_adds_a_short_prefix cfg env owner tid lb w :
  exists added,
    m_text (append_time cfg env owner tid lb w).1 = m_text lb ++ added /\
    (length added <= 42)%nat /\
    plain added = true /\
    w_out (append_time cfg env owner tid lb w).2 = w_out w /\
    w_console (append_time cfg env owner tid lb w).2 = w_console w.
Proof.
  rewrite append_time_prefix. cbn [fst snd m_text set_text].
  exists (line_prefix cfg env owner tid (w_tick w)).
  split; [reflexivity|]. split; [apply line_prefix_length|].
  split; [apply line_prefix_plain|]. split; reflexivity.
Qed.

(** X15.  On POSIX, with a working clock whose readings are in their
    ranges, the time stamp that begins a line has exactly 24 bytes, and
    with colour off the prefix is that stamp and nothing else. *)
Theorem posix_stamp_is_24_bytes cfg env owner tid lb w :
  target cfg = Posix ->
  m_use_color owner = false ->
  env_gettimeofday_ok env (w_tick w) = true ->
  (let t := env_localtime env (w_tick w) in
   t_hour t < 24 /\ t_min t < 60 /\ t_sec t < 62 /\ t_msec t < 1000) ->
  m_text lb = [] ->
  m_text (append_time cfg env owner tid lb w).1
    = posix_stamp (format_posix (env_localtime env (w_tick w)) tid) /\
  length (m_text (append_time cfg env owner tid lb w).1) = 24%nat /\
  m_default_color (append_time cfg env owner tid lb w).1 = m_default_color lb.
Proof.
  intros Ht Hc Hok (Hh & Hm & Hs & Hms) He.
  rewrite append_time_prefix. cbn [fst m_text set_text m_default_color set_default_color].
  rewrite He. cbn [app].
  unfold line_prefix, color_prefix, stamp, begin_color. rewrite Ht, Hc, Hok. cbn [andb app].
  split; [reflexivity|]. split; [|reflexivity].
  apply posix_stamp_24; lia.
Qed.

Lemma posix_stamp_is_24_bytes_witness :
  m_text (append_time posix_build sample_env file_logger sample_thread
            (new_line_buffer sample_env) sample_world).1
    = lit "12:34:56.789 [0000abcd] " /\
  length (m_text (append_time posix_build sample_env file_logger sample_thread
                    (new_line_buffer sample_env) sample_world).1) = 24%nat.
Proof.
  destruct (posix_stamp_is_24_bytes posix_build sample_env file_logger sample_thread
              (new_line_buffer sample_env) sample_world) as (H1 & H2 & _);
    try reflexivity.
  { cbn. repeat split; lia. }
  split; [|exact H2]. rewrite H1. reflexivity.
Defined.

Lemma zero_padded_at_least (width : nat) (base n : N) :
  (width <= length (zero_padded width base n))%nat.
Proof. unfold zero_padded. rewrite length_app, length_replicate. lia. Qed.

Lemma zero_padded_at_most (width k : nat) (base n : N) :
  1 < base -> (1 <= k)%nat -> (width <= k)%nat -> n < base ^ N.of_nat k ->
  (length (zero_padded width base n) <= k)%nat.
Proof.
  intros Hb Hk Hw Hn. unfold zero_padded, digits.
  pose proof (digits_aux_length base (S (N.size_nat n)) Hb k n [] Hk Hn) as Hlen.
  cbn [length] in Hlen. rewrite length_app, length_replicate. lia.
Qed.

(** X16.  On Win32, with clock readings in their ranges, the time stamp is
    never cut by the 32 bytes of [cvtbuf]: it is the whole formatted text,
    between 20 and 26 bytes long (the thread identifier takes 4 to 10
    digits). *)
Theorem win32_stamp_is_never_cut cfg env owner tid lb w :
  target cfg = Win32 ->
  (let t := env_localtime env (w_tick w) in
   t_hour t < 24 /\ t_min t < 60 /\ t_sec t < 60 /\ t_msec t < 1000) ->
  m_text (append_time cfg env owner tid lb w).1
    = m_text lb ++ format_win32 (env_localtime env (w_tick w)) tid /\
  (20 <= length (format_win32 (env_localtime env (w_tick w)) tid) <= 26)%nat.
Proof.
  intros Ht (Hh & Hm & Hs & Hms).
  assert (Hlen : (20 <= length (format_win32 (env_localtime env (w_tick w)) tid) <= 26)%nat).
  { assert (Hh' : t_hour (env_localtime env (w_tick w)) < 10 ^ N.of_nat 2)
      by (change (10 ^ N.of_nat 2) with 100; lia).
    assert (Hm' : t_min (env_localtime env (w_tick w)) < 10 ^ N.of_nat 2)
      by (change (10 ^ N.of_nat 2) with 100; lia).
    assert (Hs' : t_sec (env_localtime env (w_tick w)) < 10 ^ N.of_nat 2)
      by (change (10 ^ N.of_nat 2) with 100; lia).
    assert (Hms' : t_msec (env_localtime env (w_tick w)) < 10 ^ N.of_nat 3)
      by (change (10 ^ N.of_nat 3) with 1000; lia).
    unfold format_win32, format_clock. rewrite !length_app.
    rewrite !zero_padded_length by (try lia; try assumption).
    pose proof (zero_padded_at_least 4 10 (tid mod 2 ^ 32)).
    pose proof (zero_padded_at_most 4 10 10 (tid mod 2 ^ 32)) as Hmost.
    cbn [length lit String.list_ascii_of_string].
    assert (tid mod 2 ^ 32 < 10 ^ N.of_nat 10).
    { pose proof (N.mod_lt tid (2 ^ 32) ltac:(discriminate)) as Hlt.
      eapply N.lt_trans; [exact Hlt|]. reflexivity. }
    specialize (Hmost ltac:(lia) ltac:(lia) ltac:(lia) ltac:(assumption)). lia. }
  split; [|exact Hlen].
  unfold append_time. rewrite Ht. cbn [fst m_text set_text]. f_equal.
  unfold win32_stamp, cvtbuf_size. apply take_ge. lia.
Qed.

Lemma win32_stamp_is_never_cut_witness :
  m_text (append_time win32_build sample_env tty_logger sample_thread
            (new_line_buffer sample_env) sample_world).1
    = lit "12:34:56.789 [43981] " /\
  (20 <= length (format_win32 (env_localtime sample_env (w_tick sample_world)) sample_thread)
      <= 26)%nat.
Proof.
  assert (Hrange : let t := env_localtime sample_env (w_tick sample_world) in
                   t_hour t < 24 /\ t_min t < 60 /\ t_sec t < 60 /\ t_msec t < 1000)
    by (cbn; repeat split; lia).
  destruct (win32_stamp_is_never_cut win32_build sample_env tty_logger sample_thread
              (new_line_buffer sample_env) sample_world eq_refl Hrange) as (H1 & H2).
  split; [|exact H2]. rewrite H1. reflexivity.
Defined.

(** ** More on colours *)

Lemma mod8_lor (c k : N) : N.land k 7 = 0 -> (N.lor c k) mod 8 = c mod 8.
Proof.
  intros Hk. change 8 with (2 ^ 3). rewrite <- !N.land_ones.
  change (N.ones 3) with 7. rewrite N.land_lor_distr_l, Hk. apply N.lor_0_r.
Qed.

Lemma div16_lor (c k : N) : N.lor c k / 16 = N.lor (c / 16) (k / 16).
Proof. change 16 with (2 ^ 4). rewrite <- !N.shiftr_div_pow2. apply N.shiftr_lor. Qed.

Lemma is_bright_lor (c k : N) :
  N.land k (N.lor fg_bright bg_bright) <> 0 -> is_bright (N.lor c k) = true.
Proof.
  intros Hk. unfold is_bright. rewrite N.land_lor_distr_l.
  destruct (N.eqb_spec (N.lor (N.land c (N.lor fg_bright bg_bright))
                              (N.land k (N.lor fg_bright bg_bright))) 0) as [E|_];
    [|reflexivity].
  apply N.lor_eq_0_iff in E as [_ E]. contradiction.
Qed.

Lemma ansi_sequence_bright (c k : N) :
  k = fg_bright \/ k = bg_bright ->
  ansi_sequence (N.lor c k) =
    [ESC; "["; "3"; ansi_digit (c mod 8); ";"; "4"; ansi_digit ((c / 16) mod 8);
     ";"; "1"; "m"]%char.
Proof.
  intros Hk. unfold ansi_sequence.
  rewrite is_bright_lor by (destruct Hk as [->| ->]; discriminate).
  rewrite div16_lor.
  rewrite (mod8_lor c k) by (destruct Hk as [->| ->]; reflexivity).
  rewrite (mod8_lor (c / 16) (k / 16)) by (destruct Hk as [->| ->]; reflexivity).
  reflexivity.
Qed.

(** X17.  The ANSI rendering has one "bright" only: a colour with the
    bright-foreground bit and the same colour with the bright-background
    bit instead are rendered by the same sequence, which ends in [;1m]. *)
Theorem bright_background_is_rendered_as_bright_foreground
    (lgA lgB : logger) (lb : line_buffer) (c : N) :
  get_color lgA = N.lor c fg_bright ->
  get_color lgB = N.lor c bg_bright ->
  get_color lgA <> no_color ->
  get_color lgB <> no_color ->
  m_text (set_custom_color_posix lgA lb) = m_text (set_custom_color_posix lgB lb) /\
  m_text (set_custom_color_posix lgA lb) =
    m_text lb ++ [ESC; "["; "3"; ansi_digit (c mod 8); ";"; "4"; ansi_digit ((c / 16) mod 8);
                  ";"; "1"; "m"]%char.
Proof.
  intros HA HB HneA HneB.
  rewrite !set_custom_color_posix_sequence by assumption.
  cbn [m_text set_text]. rewrite HA, HB, !ansi_sequence_bright by auto. auto.
Qed.

Lemma bright_background_is_rendered_as_bright_foreground_witness :
  let lgA := set_color tty_logger (N.lor fg_red fg_bright) in
  let lgB := set_color tty_logger (N.lor fg_red bg_bright) in
  m_text (set_custom_color_posix lgA (new_line_buffer sample_env))
    = m_text (set_custom_color_posix lgB (new_line_buffer sample_env)) /\
  m_text (set_custom_color_posix lgA (new_line_buffer sample_env)) = ESC :: lit "[31;40;1m".
Proof.
  intros lgA lgB.
  destruct (bright_background_is_rendered_as_bright_foreground lgA lgB
              (new_line_buffer sample_env) fg_red) as [H1 H2];
    try reflexivity; try discriminate.
  split; [exact H1|]. rewrite H2. reflexivity.
Defined.

(** X18.  With the sentinel as custom colour a line written to a terminal
    on the ANSI target carries no escape sequence at all, neither in front
    nor behind, whatever colour the thread's previous line had: it is the
    time stamp, the content and the newline. *)
Theorem sentinel_color_writes_plain_lines cfg env lg tid w (l : text) :
  target cfg = Posix ->
  get_color lg = no_color ->
  m_use_color lg = true ->
  m_prepend_time lg = true ->
  m_text (buffer env lg tid) = [] ->
  l <> [] -> find l LF = None -> size l <= 958 ->
  exists lg' w' ok,
    xsputn cfg env lg tid w (l ++ [LF]) = Ok (lg', w') /\
    w_out w' = w_out w ++ [EvWrite (m_con lg) (stamp cfg env tid (w_tick w) ++ l ++ [LF]) ok] /\
    m_default_color (buffer env lg' tid) = no_color.
Proof.
  intros Ht Hsent Hc Hstamps Hempty Hne Hnl Hshort.
  rewrite xsputn_one_line; try assumption.
  2:{ unfold single_write. rewrite Ht. reflexivity. }
  assert (Hd : begin_color cfg lg (buffer env lg tid) = no_color)
    by (unfold begin_color; rewrite Ht, Hc; exact Hsent).
  assert (Hprefix : line_prefix cfg env lg tid (w_tick w) = stamp cfg env tid (w_tick w)).
  { unfold line_prefix, color_prefix. rewrite Ht, Hc, Hsent. reflexivity. }
  assert (Hsuffix : line_suffix cfg no_color = [LF]).
  { unfold line_suffix. rewrite Ht. reflexivity. }
  rewrite Hd, Hprefix, Hsuffix.
  eexists _, _, _. split; [reflexivity|]. split.
  - rewrite write_line_out. reflexivity.
  - rewrite buffer_with_buffer. reflexivity.
Qed.

Lemma sentinel_color_writes_plain_lines_witness :
  let lg := set_color tty_logger no_color in
  exists lg' w' ok,
    xsputn posix_build sample_env lg sample_thread sample_world (lit "plain" ++ [LF])
      = Ok (lg', w') /\
    w_out w' = w_out sample_world
                 ++ [EvWrite (m_con lg)
                       (stamp posix_build sample_env sample_thread (w_tick sample_world)
                          ++ lit "plain" ++ [LF]) ok] /\
    m_default_color (buffer sample_env lg' sample_thread) = no_color.
Proof.
  intros lg.
  apply (sentinel_color_writes_plain_lines posix_build sample_env lg sample_thread
           sample_world (lit "plain")); try reflexivity; try discriminate.
Defined.

(** ** Installation *)

(** X19.  When the standard error handle is not valid, nothing is
    installed: the two streams keep their native buffers, so a logging
    statement of any level leaves the logger's world as it is, and setting
    a colour does nothing. *)
Theorem nothing_is_installed_on_an_invalid_handle cfg env tid (s : text) w (color : N) :
  env_valid env (env_err env) = false ->
  let reg := new_logger_init env in
  m_clog reg = None /\ m_cerr reg = None /\
  Forall (fun stmt : statement => stmt reg w = Ok (reg, w))
    [LTRACE_ cfg env tid s; LDEBUG_ cfg env tid s; LINFO_ cfg env tid s;
     LWARN_ cfg env tid s; LERR_ cfg env tid s; LCRIT_ cfg env tid s] /\
  set_clog_color reg color = reg /\
  set_cerr_color reg color = reg.
Proof.
  intros Hvalid reg. subst reg. unfold new_logger_init. rewrite Hvalid. cbn [negb].
  split; [reflexivity|]. split; [reflexivity|].
  split; [|split; reflexivity].
  unfold LTRACE_, LDEBUG_, LINFO_, LWARN_, LERR_, LCRIT_, EXT_CLOG_IF, EXT_CERR_IF,
    clog_insert, cerr_insert. cbn [m_clog m_cerr].
  repeat constructor;
    match goal with |- (if ?b then _ else _) = _ => destruct b; reflexivity end.
Qed.

Lemma nothing_is_installed_on_an_invalid_handle_witness :
  let reg := new_logger_init closed_stderr_env in
  m_clog reg = None /\ m_cerr reg = None /\
  LCRIT_ posix_build closed_stderr_env sample_thread (lit "lost" ++ [LF]) reg sample_world
    = Ok (reg, sample_world).
Proof.
  intros reg.
  destruct (nothing_is_installed_on_an_invalid_handle posix_build closed_stderr_env
              sample_thread (lit "lost" ++ [LF]) sample_world 0 eq_refl)
    as (H1 & H2 & H3 & _).
  split; [exact H1|]. split; [exact H2|].
  apply Forall_cons in H3 as [_ H3]. apply Forall_cons in H3 as [_ H3].
  apply Forall_cons in H3 as [_ H3]. apply Forall_cons in H3 as [_ H3].
  apply Forall_cons in H3 as [_ H3]. apply Forall_cons in H3 as [H3 _]. exact H3.
Defined.

(** ** Failed writes change nothing *)

Section WriteVerdicts.

Variables (cfg : build) (env : environment) (ok : nat -> raw_handle -> text -> bool).

Let env' : environment := set_write_ok env ok.

Lemma same_calls_tick w1 w2 : same_calls w1 w2 -> same_calls (tick w1) (tick w2).
Proof. intros (Ht & Hc & Ho). repeat split; cbn; congruence. Qed.

Lemma same_calls_write_line owner (data : text) w1 w2 :
  same_calls w1 w2 ->
  same_calls (write_line env owner data w1) (write_line env' owner data w2).
Proof.
  intros (Ht & Hc & Ho). repeat split; cbn; try congruence.
  rewrite !map_app, Ho. reflexivity.
Qed.

Lemma same_calls_set_attribute h attr w1 w2 :
  same_calls w1 w2 ->
  same_calls (SetConsoleTextAttribute h attr w1) (SetConsoleTextAttribute h attr w2).
Proof.
  intros (Ht & Hc & Ho). repeat split; cbn; try congruence.
  - rewrite Hc. reflexivity.
  - rewrite !map_app, Ho. reflexivity.
Qed.

Lemma same_calls_write_to_console owner lb (s : text) w1 w2 :
  same_calls w1 w2 ->
  same_calls (write_to_console env owner lb s w1) (write_to_console env' owner lb s w2).
Proof.
  intros H. unfold write_to_console.
  change (to_wide env' s) with (to_wide env s).
  destruct (forallb _ s); [apply same_calls_write_line, H|].
  destruct (to_wide env s) as [wbuf|]; [|apply same_calls_write_line, H].
  change (to_console env' wbuf) with (to_console env wbuf).
  destruct (to_console env wbuf); apply same_calls_write_line, H.
Qed.

Lemma same_calls_flush owner lb w1 w2 :
  same_calls w1 w2 ->
  (flush cfg env owner lb w1).1 = (flush cfg env' owner lb w2).1 /\
  same_calls (flush cfg env owner lb w1).2 (flush cfg env' owner lb w2).2.
Proof.
  intros H. unfold flush.
  destruct (target cfg) eqn:Ht.
  - destruct (m_use_color owner).
    + unfold set_custom_color, set_custom_color_win32, GetConsoleScreenBufferInfo. rewrite Ht.
      assert (Hwrite : forall lb0 v1 v2, same_calls v1 v2 ->
                same_calls
                  (if m_convert_cp lb0 then write_to_console env owner lb0 (m_text lb0) v1
                   else write_line env owner (m_text lb0) v1)
                  (if m_convert_cp lb0 then write_to_console env' owner lb0 (m_text lb0) v2
                   else write_line env' owner (m_text lb0) v2)).
      { intros lb0 v1 v2 Hv. destruct (m_convert_cp lb0);
          [apply same_calls_write_to_console|apply same_calls_write_line]; exact Hv. }
      assert (Hrestore : forall d v1 v2, same_calls v1 v2 ->
                same_calls
                  (write_line env owner [CR; LF]
                     (if d =? no_color then v1 else SetConsoleTextAttribute (m_con owner) d v1))
                  (write_line env' owner [CR; LF]
                     (if d =? no_color then v2 else SetConsoleTextAttribute (m_con owner) d v2))).
      { intros d v1 v2 Hv. apply same_calls_write_line.
        destruct (d =? no_color); [exact Hv|apply same_calls_set_attribute, Hv]. }
      destruct (no_color =? get_color owner).
      * cbn [fst snd]. split; [reflexivity|]. apply Hrestore, Hwrite, H.
      * destruct H as (Htick & Hcons & Hout).
        cbn [w_console tick]. rewrite Hcons.
        destruct (w_console w2 !! m_con owner) as [attr|]; cbn [fst snd];
          (split; [reflexivity|]); apply Hrestore, Hwrite.
        -- apply same_calls_set_attribute, same_calls_tick. repeat split; assumption.
        -- apply same_calls_tick. repeat split; assumption.
    + cbn [fst snd]. split; [reflexivity|]. apply same_calls_write_line, H.
  - cbn [fst snd]. split; [reflexivity|]. apply same_calls_write_line, H.
Qed.

Lemma same_calls_append_time owner tid lb w1 w2 :
  same_calls w1 w2 ->
  (append_time cfg env owner tid lb w1).1 = (append_time cfg env' owner tid lb w2).1 /\
  same_calls (append_time cfg env owner tid lb w1).2 (append_time cfg env' owner tid lb w2).2.
Proof.
  intros H. rewrite !append_time_prefix. cbn [fst snd].
  destruct H as (Htick & Hcons & Hout).
  change (line_prefix cfg env' owner tid (w_tick w2))
    with (line_prefix cfg env owner tid (w_tick w2)).
  rewrite Htick. split; [reflexivity|]. apply same_calls_tick. repeat split; assumption.
Qed.

Lemma same_outcome_append_loop owner tid fuel :
  forall lb w1 w2 (buf : text),
    same_calls w1 w2 ->
    match append_loop fuel cfg env owner tid lb w1 buf,
          append_loop fuel cfg env' owner tid lb w2 buf with
    | Ok (lb1, v1, rest1), Ok (lb2, v2, rest2) =>
        lb1 = lb2 /\ rest1 = rest2 /\ same_calls v1 v2
    | AssertFailed, AssertFailed => True
    | OutOfFuel, OutOfFuel => True
    | _, _ => False
    end.
Proof.
  induction fuel as [|fuel IH]; intros lb w1 w2 buf H; rewrite !append_loop_unfold;
    destruct (_ <=? _); auto.
  destruct (negb (NDEBUG cfg) && _); [exact I|]. cbv zeta.
  set (chunk := N.min _ _).
  destruct (same_calls_flush owner (set_text lb (m_text lb ++ take (N.to_nat chunk) buf))
              w1 w2 H) as [Hlb Hw].
  destruct (flush cfg env owner _ w1) as [lbA vA].
  destruct (flush cfg env' owner _ w2) as [lbB vB].
  cbn [fst snd] in Hlb, Hw. subst lbB.
  destruct (negb _ && _).
  - destruct (same_calls_append_time owner tid lbA vA vB Hw) as [Hlb' Hw'].
    destruct (append_time cfg env owner tid lbA vA) as [lbC vC].
    destruct (append_time cfg env' owner tid lbA vB) as [lbD vD].
    cbn [fst snd] in Hlb', Hw'. subst lbD. apply IH, Hw'.
  - apply IH, Hw.
Qed.

Lemma same_outcome_append owner tid lb w1 w2 (buf : text) :
  same_calls w1 w2 ->
  same_outcome (append cfg env owner tid lb w1 buf) (append cfg env' owner tid lb w2 buf).
Proof.
  intros H. unfold append.
  assert (Hstart : forall p1 p2 : line_buffer * world,
            p1.1 = p2.1 -> same_calls p1.2 p2.2 ->
            same_outcome
              ('(lb0, w0, rest) ← append_loop (S (length buf)) cfg env owner tid p1.1 p1.2 buf;
               Ok (if size rest =? 0 then lb0 else set_text lb0 (m_text lb0 ++ rest), w0))
              ('(lb0, w0, rest) ← append_loop (S (length buf)) cfg env' owner tid p2.1 p2.2 buf;
               Ok (if size rest =? 0 then lb0 else set_text lb0 (m_text lb0 ++ rest), w0))).
  { intros [lbA vA] [lbB vB] Hlb Hw. cbn [fst snd] in *. subst lbB.
    pose proof (same_outcome_append_loop owner tid (S (length buf)) lbA vA vB buf Hw) as Hloop.
    destruct (append_loop _ cfg env owner tid lbA vA buf) as [[[lb1 v1] r1]| |],
             (append_loop _ cfg env' owner tid lbA vB buf) as [[[lb2 v2] r2]| |];
      cbn [mbind result_bind same_outcome]; try contradiction; auto.
    destruct Hloop as (-> & -> & Hv). auto. }
  destruct (m_prepend_time owner && bool_decide (m_text lb = [])).
  - destruct (same_calls_append_time owner tid lb w1 w2 H) as [Hlb Hw].
    specialize (Hstart _ _ Hlb Hw).
    destruct (append_time cfg env owner tid lb w1), (append_time cfg env' owner tid lb w2).
    exact Hstart.
  - exact (Hstart (lb, w1) (lb, w2) eq_refl H).
Qed.

Lemma same_outcome_xsputn_loop owner tid fuel :
  forall lb w1 w2 (buf : text),
    same_calls w1 w2 ->
    same_outcome (xsputn_loop fuel cfg env owner tid lb w1 buf)
                 (xsputn_loop fuel cfg env' owner tid lb w2 buf).
Proof.
  induction fuel as [|fuel IH]; intros lb w1 w2 buf H; destruct buf as [|c buf];
    cbn [xsputn_loop same_outcome]; auto.
  destruct (find (c :: buf) LF) as [nl|]; [|apply same_outcome_append, H].
  assert (Hfirst : same_outcome
            (if (nl =? 0)%nat then Ok (lb, w1)
             else append cfg env owner tid lb w1 (take nl (c :: buf)))
            (if (nl =? 0)%nat then Ok (lb, w2)
             else append cfg env' owner tid lb w2 (take nl (c :: buf)))).
  { destruct (nl =? 0)%nat; [cbn; auto|apply same_outcome_append, H]. }
  destruct (if (nl =? 0)%nat then Ok (lb, w1) else _) as [[lbA vA]| |],
           (if (nl =? 0)%nat then Ok (lb, w2) else _) as [[lbB vB]| |];
    cbn [mbind result_bind same_outcome] in *; try contradiction; auto.
  destruct Hfirst as [<- Hv].
  destruct (same_calls_flush owner lbA vA vB Hv) as [Hlb Hw].
  destruct (flush cfg env owner lbA vA) as [lbC vC], (flush cfg env' owner lbA vB) as [lbD vD].
  cbn [fst snd] in Hlb, Hw. subst lbD. apply IH, Hw.
Qed.

End WriteVerdicts.

Lemma same_calls_refl w : same_calls w w.
Proof. repeat split. Qed.

(** X20.  What [sys::write_file] reports has no influence on the logger.
    Under any other verdicts on the writes, [xsputn] ends the same way,
    leaves the same logger (buffers included) and makes the same calls
    with the same bytes in the same order: a failed write is neither
    retried nor remembered. *)
Theorem write_failures_do_not_change_the_logger cfg env ok lg tid w (buf : text) :
  same_outcome (xsputn cfg env lg tid w buf)
               (xsputn cfg (set_write_ok env ok) lg tid w buf).
Proof.
  unfold xsputn.
  change (buffer (set_write_ok env ok) lg tid) with (buffer env lg tid).
  pose proof (same_outcome_xsputn_loop cfg env ok lg tid (length buf) (buffer env lg tid)
                w w buf (same_calls_refl w)) as Hloop.
  destruct (xsputn_loop _ cfg env lg tid _ w buf) as [[lb1 w1]| |],
           (xsputn_loop _ cfg (set_write_ok env ok) lg tid _ w buf) as [[lb2 w2]| |];
    cbn [mbind result_bind same_outcome] in *; try contradiction; auto.
  destruct Hloop as [-> Hw]. auto.
Qed.

(** ** Redirection and the other threads *)

(** X21.  A redirection flushes the buffer of the calling thread only.
    The pending text of every other thread stays in its buffer, and when
    that thread flushes it afterwards, all the calls of the flush are on
    the new handle. *)
Theorem redirect_leaves_other_threads_pending cfg env lg tid tid' w (file : raw_handle) :
  tid' <> tid ->
  let lg' := (redirect_handle cfg env lg tid w file).1 in
  buffer env lg' tid' = buffer env lg tid' /\
  forall w'', exists evs,
    w_out (flush cfg env lg' (buffer env lg' tid') w'').2 = w_out w'' ++ evs /\
    Forall (fun e => event_handle e = file) evs /\
    (m_convert_cp (buffer env lg tid') = false \/ plain (m_text (buffer env lg tid')) = true ->
     written file evs
       = m_text (buffer env lg tid') ++ flush_tail cfg (buffer env lg tid')).
Proof.
  intros Hne lg'.
  assert (Hcon : m_con lg' = file /\ m_buffer lg' !! tid' = m_buffer lg !! tid').
  { subst lg'. unfold redirect_handle.
    destruct (flush cfg env lg (buffer env lg tid) w) as [lb w1].
    destruct (target cfg); [destruct (env_file_type env file)|];
      cbn [fst]; (split; [reflexivity|]); unfold adopt; cbn [m_buffer];
      apply lookup_with_buffer_ne, Hne. }
  destruct Hcon as [Hcon Hlook].
  assert (Hbuf : buffer env lg' tid' = buffer env lg tid').
  { unfold buffer. rewrite Hlook. reflexivity. }
  split; [exact Hbuf|].
  intros w''. rewrite Hbuf, <- Hcon. apply flush_effect.
Qed.

Lemma redirect_leaves_other_threads_pending_witness :
  let lg := with_buffer tty_logger 1 (set_text (new_line_buffer sample_env) (lit "pending")) in
  let lg' := (redirect_handle posix_build sample_env lg sample_thread sample_world 5%Z).1 in
  (1 : thread_id) <> sample_thread /\
  m_text (buffer sample_env lg' 1) = lit "pending" /\
  exists evs,
    w_out (flush posix_build sample_env lg' (buffer sample_env lg' 1) sample_world).2
      = w_out sample_world ++ evs /\
    Forall (fun e => event_handle e = 5%Z) evs.
Proof.
  intros lg lg'.
  assert (Hne : (1 : thread_id) <> sample_thread) by discriminate.
  split; [exact Hne|].
  destruct (redirect_leaves_other_threads_pending posix_build sample_env lg sample_thread 1
              sample_world 5%Z Hne) as [Hbuf Hflush].
  fold lg' in Hbuf, Hflush.
  split; [rewrite Hbuf; reflexivity|].
  destruct (Hflush sample_world) as (evs & Hout & Hon & _). eauto.
Defined.
